(** * Action Codes protocol (v2): canonical messages, delegation strategy,
      Solana adapter and protocol facade.

    A shallow embedding of the TypeScript sources
      - [src/utils/canonical.ts]
      - [src/strategy/DelegationStrategy.ts]
      - [src/adapters/SolanaAdapter.ts] (both revisions present in the tree)
      - [src/adapters/BaseChainAdapter.ts]
      - [src/ActionCodesProtocol.ts]
    together with the properties the specification states about them.

    Conventions of the embedding.
      - A JavaScript string is the list of its UTF-16 code units; [length]
        is the JavaScript [.length].
      - A [Uint8Array] is a list of byte values.
      - Timestamps are integers (milliseconds since the epoch) and live in
        [Z]; fractional numbers, infinities and magnitudes from 10^21 on
        are outside the model.
      - [Date.now()] is an explicit argument: one argument per reading, in
        program order.
      - A function that can throw returns [result A]; the exception is a
        [ProtocolError] with its stable code, a [TypeError] raised by the
        language, or an error raised by an external library. *)

From Stdlib Require Import ZArith NArith List String Ascii Bool Lia.
From Stdlib Require Import DecimalString.
From stdpp Require Import base option list gmap.
Import ListNotations.

#[local] Open Scope N_scope.

(** ** JavaScript strings and byte arrays *)

Definition code_unit := N.
Definition jsstring := list code_unit.
Definition byte := N.
Definition bytes := list byte.

(** A string literal of the sources, as code units. *)
Definition js (s : string) : jsstring :=
  List.map N_of_ascii (list_ascii_of_string s).

Definition dquote : code_unit := 34.
Definition backslash : code_unit := 92.

(** [a === b] on strings. *)
Definition str_eqb (a b : jsstring) : bool := bool_decide (a = b).

(** Truthiness of a string: [!s] is [true] exactly on the empty string. *)
Definition str_falsy (s : jsstring) : bool :=
  match s with [] => true | _ => false end.

Definition is_high_surrogate (c : code_unit) : bool :=
  (0xD800 <=? c) && (c <=? 0xDBFF).
Definition is_low_surrogate (c : code_unit) : bool :=
  (0xDC00 <=? c) && (c <=? 0xDFFF).

(** Every code unit is an ASCII character, as in a base58 string. *)
Definition all_ascii (s : jsstring) : bool := forallb (fun c => c <? 0x80) s.

(** [String.prototype.isWellFormed]: no unpaired surrogate. *)
Fixpoint isWellFormed (s : jsstring) : bool :=
  match s with
  | [] => true
  | c :: rest =>
      if is_high_surrogate c then
        match rest with
        | d :: rest' => is_low_surrogate d && isWellFormed rest'
        | [] => false
        end
      else negb (is_low_surrogate c) && isWellFormed rest
  end.

(** ** Errors *)

(** The closed set of error kinds ([ProtocolErrorCode] of [src/errors.ts],
    as listed in [docs/errors/enumerations/ProtocolErrorCode.md]). *)
Inductive ProtocolErrorCode :=
  | EXPIRED_CODE | INVALID_CODE | INVALID_CODE_FORMAT | INVALID_SIGNATURE
  | MISSING_META | INVALID_META_FORMAT | META_MISMATCH | META_TOO_LARGE
  | INVALID_TRANSACTION_FORMAT
  | TRANSACTION_NOT_SIGNED_BY_INTENDED_OWNER
  | TRANSACTION_NOT_SIGNED_BY_ISSUER
  | INVALID_PUBKEY_FORMAT | INVALID_INPUT | MISSING_REQUIRED_FIELD
  | CRYPTO_ERROR | INVALID_DIGEST | INVALID_ADAPTER.

(** What a [throw] carries.  [ProtocolError c details]: a typed protocol
    error with its stable code [c] and the string arguments its factory
    was given.  [TypeError]: raised by the language itself (a property read
    on [undefined]).  [LibraryError]: raised by an external library. *)
Inductive exn :=
  | ProtocolError (code : ProtocolErrorCode) (details : list jsstring)
  | TypeError
  | LibraryError.

Definition is_protocol_error (e : exn) : bool :=
  match e with ProtocolError _ _ => true | _ => false end.

Definition error_code (e : exn) : option ProtocolErrorCode :=
  match e with ProtocolError c _ => Some c | _ => None end.

(** Modelled from the spec: the factories of [ProtocolError] in
    [src/errors.ts], which is not part of the tree.  Each raises the error
    kind it is named after; its string arguments are kept, its numeric
    arguments are not. *)
Module ProtocolErrors.
(** [invalidInput(field, value, reason)] *)
Definition invalidInput (field reason : string) : exn :=
  ProtocolError INVALID_INPUT [js field; js reason].
(** [expiredCode(code, expiresAt, currentTime)] *)
Definition expiredCode (code : jsstring) : exn :=
  ProtocolError EXPIRED_CODE [code].
(** [missingRequiredField(field)] *)
Definition missingRequiredField (field : string) : exn :=
  ProtocolError MISSING_REQUIRED_FIELD [js field].
(** [invalidSignature(reason)] *)
Definition invalidSignature (reason : string) : exn :=
  ProtocolError INVALID_SIGNATURE [js reason].
(** [missingMeta()] *)
Definition missingMeta : exn := ProtocolError MISSING_META [].
(** [metaMismatch(expected, actual, field)] *)
Definition metaMismatch (expected actual : jsstring) (field : string)
  : exn :=
  ProtocolError META_MISMATCH [expected; actual; js field].
(** [invalidTransactionFormat(reason)] *)
Definition invalidTransactionFormat (reason : string) : exn :=
  ProtocolError INVALID_TRANSACTION_FORMAT [js reason].
(** [invalidAdapter(chain)] *)
Definition invalidAdapter (chain : jsstring) : exn :=
  ProtocolError INVALID_ADAPTER [chain].
(** [invalidMetaFormat(reason)] *)
Definition invalidMetaFormat (reason : string) : exn :=
  ProtocolError INVALID_META_FORMAT [js reason].
(** [invalidPubkeyFormat(pubkey, reason)] *)
Definition invalidPubkeyFormat (pubkey : jsstring) (reason : string) : exn :=
  ProtocolError INVALID_PUBKEY_FORMAT [pubkey; js reason].
(** [transactionNotSignedByIntendedOwner(intended, actualSigners)]; the
    list of signers is not kept. *)
Definition transactionNotSignedByIntendedOwner (intended : jsstring) : exn :=
  ProtocolError TRANSACTION_NOT_SIGNED_BY_INTENDED_OWNER [intended].
(** [transactionNotSignedByIssuer(issuer, actualSigners)]; the list of
    signers is not kept. *)
Definition transactionNotSignedByIssuer (issuer : jsstring) : exn :=
  ProtocolError TRANSACTION_NOT_SIGNED_BY_ISSUER [issuer].
End ProtocolErrors.
Import ProtocolErrors.

(** ** Computations that may throw *)

Definition result (A : Type) : Type := exn + A.

Definition Ok {A} (a : A) : result A := inr a.
Definition throw {A} (e : exn) : result A := inl e.

Definition rbind {A B} (m : result A) (k : A -> result B) : result B :=
  match m with inl e => inl e | inr a => k a end.

Definition try_catch {A} (m : result A) (handler : exn -> result A)
  : result A :=
  match m with inl e => handler e | inr a => inr a end.

(** A library call that throws: [None] becomes a [LibraryError]. *)
Definition from_lib {A} (o : option A) : result A :=
  match o with Some a => Ok a | None => throw LibraryError end.

Declare Scope result_scope.
Delimit Scope result_scope with result.
Notation "x <- m ;; k" := (rbind m (fun x => k))
  (at level 100, m at next level, right associativity) : result_scope.
Notation "m ;;; k" := (rbind m (fun _ => k))
  (at level 100, right associativity) : result_scope.

Definition throws_code {A} (r : result A) (c : ProtocolErrorCode) : Prop :=
  exists details, r = throw (ProtocolError c details).

Definition succeeds {A} (r : result A) : Prop := exists a, r = Ok a.

(** ** [TextEncoder] and [JSON.stringify] *)

(** UTF-8 bytes of one code point. *)
Definition utf8_code_point (cp : N) : bytes :=
  if cp <? 0x80 then [cp]
  else if cp <? 0x800 then
    [N.lor 0xC0 (N.shiftr cp 6); N.lor 0x80 (N.land cp 0x3F)]
  else if cp <? 0x10000 then
    [N.lor 0xE0 (N.shiftr cp 12);
     N.lor 0x80 (N.land (N.shiftr cp 6) 0x3F);
     N.lor 0x80 (N.land cp 0x3F)]
  else
    [N.lor 0xF0 (N.shiftr cp 18);
     N.lor 0x80 (N.land (N.shiftr cp 12) 0x3F);
     N.lor 0x80 (N.land (N.shiftr cp 6) 0x3F);
     N.lor 0x80 (N.land cp 0x3F)].

(** [new TextEncoder().encode(s)]: a surrogate pair is one code point, an
    unpaired surrogate is replaced by U+FFFD. *)
Fixpoint TextEncoder_encode (s : jsstring) : bytes :=
  match s with
  | [] => []
  | c :: rest =>
      if is_high_surrogate c then
        match rest with
        | d :: rest' =>
            if is_low_surrogate d then
              utf8_code_point (0x10000 + (c - 0xD800) * 0x400 + (d - 0xDC00))
                ++ TextEncoder_encode rest'
            else utf8_code_point 0xFFFD ++ TextEncoder_encode rest
        | [] => utf8_code_point 0xFFFD
        end
      else if is_low_surrogate c then
        utf8_code_point 0xFFFD ++ TextEncoder_encode rest
      else utf8_code_point c ++ TextEncoder_encode rest
  end.

(** [Number::toString] on an integer: decimal digits, a leading minus
    sign for negative values. *)
Definition Number_toString (z : Z) : jsstring :=
  js (NilZero.string_of_int (Z.to_int z)).

Definition hex_digit (n : N) : code_unit :=
  if n <? 10 then 48 + n else 87 + n.

(** The four-digit escape of a code unit (backslash, u, lower-case
    hexadecimal digits). *)
Definition unicode_escape (c : code_unit) : jsstring :=
  [backslash; 117;
   hex_digit (N.land (N.shiftr c 12) 0xF);
   hex_digit (N.land (N.shiftr c 8) 0xF);
   hex_digit (N.land (N.shiftr c 4) 0xF);
   hex_digit (N.land c 0xF)].

(** One code unit that is not a surrogate, as [QuoteJSONString] emits it. *)
Definition quote_code_unit (c : code_unit) : jsstring :=
  if c =? 0x08 then [backslash; 98]
  else if c =? 0x09 then [backslash; 116]
  else if c =? 0x0A then [backslash; 110]
  else if c =? 0x0C then [backslash; 102]
  else if c =? 0x0D then [backslash; 114]
  else if c =? dquote then [backslash; dquote]
  else if c =? backslash then [backslash; backslash]
  else if c <? 0x20 then unicode_escape c
  else [c].

Fixpoint QuoteJSONString_chars (s : jsstring) : jsstring :=
  match s with
  | [] => []
  | c :: rest =>
      if is_high_surrogate c then
        match rest with
        | d :: rest' =>
            if is_low_surrogate d then c :: d :: QuoteJSONString_chars rest'
            else unicode_escape c ++ QuoteJSONString_chars rest
        | [] => unicode_escape c
        end
      else if is_low_surrogate c then
        unicode_escape c ++ QuoteJSONString_chars rest
      else quote_code_unit c ++ QuoteJSONString_chars rest
  end.

(** [QuoteJSONString] of ECMA-262 (well-formed [JSON.stringify]). *)
Definition QuoteJSONString (s : jsstring) : jsstring :=
  [dquote] ++ QuoteJSONString_chars s ++ [dquote].

(** The values the canonical serializers hand to [JSON.stringify]. *)
Inductive JSON :=
  | JString (s : jsstring)
  | JNumber (z : Z).

Definition SerializeJSONProperty (v : JSON) : jsstring :=
  match v with
  | JString s => QuoteJSONString s
  | JNumber z => Number_toString z
  end.

(** [SerializeJSONObject] without indentation: the members in insertion
    order, separated by commas. *)
Fixpoint SerializeJSONMembers (members : list (jsstring * JSON)) : jsstring :=
  match members with
  | [] => []
  | [(k, v)] => QuoteJSONString k ++ js ":" ++ SerializeJSONProperty v
  | (k, v) :: rest =>
      QuoteJSONString k ++ js ":" ++ SerializeJSONProperty v ++ js ","
        ++ SerializeJSONMembers rest
  end.

(** [JSON.stringify(obj)] on an object literal with the given members. *)
Definition JSON_stringify (members : list (jsstring * JSON)) : jsstring :=
  js "{" ++ SerializeJSONMembers members ++ js "}".

(** ** Canonical serializers ([src/utils/canonical.ts]) *)

Definition CANONICAL_MESSAGE_VERSION : Z := 1.
Definition CANONICAL_MESSAGE_PREFIX : jsstring := js "actioncodes".
Definition CANONICAL_REVOKE_MESSAGE_PREFIX : jsstring :=
  js "actioncodes-revoke".

(** The character class of the guard: a double quote, a backslash, or a
    C0/C1 control character. *)
Definition unsafe_code_unit (c : code_unit) : bool :=
  (c =? dquote) || (c =? backslash) || (c <=? 0x1F)
  || ((0x7F <=? c) && (c <=? 0x9F)).

(** The regular-expression test of the guard: some code unit of [s] is in
    the class above. *)
Definition has_unsafe_char (s : jsstring) : bool := existsb unsafe_code_unit s.

Record CanonicalMessageParts := {
  cmp_pubkey : jsstring;
  cmp_windowStart : Z;
}.

Record CanonicalRevokeMessageParts := {
  crp_pubkey : jsstring;
  crp_codeHash : jsstring;
  crp_windowStart : Z;
}.

#[local] Open Scope result_scope.

(** [serializeCanonical].  The [typeof parts.pubkey !== "string"] test
    cannot fire on a [jsstring]. *)
Definition serializeCanonical (parts : CanonicalMessageParts) : result bytes :=
  if (length (cmp_pubkey parts) =? 0)%nat then
    throw (invalidInput "pubkey" "cannot be empty")
  else if (100 <? length (cmp_pubkey parts))%nat then
    throw (invalidInput "pubkey" "too long (max 100 characters)")
  else if has_unsafe_char (cmp_pubkey parts) then
    throw (invalidInput "pubkey"
             "contains invalid characters for public key or JSON")
  else
    let json := JSON_stringify
      [ (js "id", JString CANONICAL_MESSAGE_PREFIX);
        (js "ver", JNumber CANONICAL_MESSAGE_VERSION);
        (js "pubkey", JString (cmp_pubkey parts));
        (js "windowStart", JNumber (cmp_windowStart parts)) ] in
    Ok (TextEncoder_encode json).

(** [serializeCanonicalRevoke]. *)
Definition serializeCanonicalRevoke (parts : CanonicalRevokeMessageParts)
  : result bytes :=
  if (length (crp_pubkey parts) =? 0)%nat then
    throw (invalidInput "pubkey" "cannot be empty")
  else if (100 <? length (crp_pubkey parts))%nat then
    throw (invalidInput "pubkey" "too long (max 100 characters)")
  else if (length (crp_codeHash parts) =? 0)%nat then
    throw (invalidInput "codeHash" "cannot be empty")
  else if (100 <? length (crp_codeHash parts))%nat then
    throw (invalidInput "codeHash" "too long (max 100 characters)")
  else if has_unsafe_char (crp_pubkey parts)
          || has_unsafe_char (crp_codeHash parts) then
    throw (invalidInput "input" "contains invalid characters")
  else
    let json := JSON_stringify
      [ (js "id", JString CANONICAL_REVOKE_MESSAGE_PREFIX);
        (js "ver", JNumber CANONICAL_MESSAGE_VERSION);
        (js "pubkey", JString (crp_pubkey parts));
        (js "codeHash", JString (crp_codeHash parts));
        (js "windowStart", JNumber (crp_windowStart parts)) ] in
    Ok (TextEncoder_encode json).

(** [getCanonicalMessageParts]: the window starts at the clock reading. *)
Definition getCanonicalMessageParts (now : Z) (pubkey : jsstring)
  : result bytes :=
  serializeCanonical {| cmp_pubkey := pubkey; cmp_windowStart := now |}.

(** The generation message of the specification, as text: the JSON object
    with members [id], [ver], [pubkey], [windowStart] in this order, the
    pubkey between double quotes and the window start in decimal. *)
Definition quoted (s : jsstring) : jsstring := [dquote] ++ s ++ [dquote].

Definition generation_message_text (P : jsstring) (T : Z) : jsstring :=
  js "{" ++ quoted (js "id") ++ js ":" ++ quoted (js "actioncodes") ++ js ","
    ++ quoted (js "ver") ++ js ":1,"
    ++ quoted (js "pubkey") ++ js ":" ++ quoted P ++ js ","
    ++ quoted (js "windowStart") ++ js ":" ++ Number_toString T ++ js "}".

(** A string as it can stand between the quotes of a JSON text in UTF-8:
    itself, except that an unpaired surrogate, which UTF-8 cannot carry,
    is written as its escape.  A well-formed string is left as it is. *)
Fixpoint escape_unpaired (s : jsstring) : jsstring :=
  match s with
  | [] => []
  | c :: rest =>
      if is_high_surrogate c then
        match rest with
        | d :: rest' =>
            if is_low_surrogate d then c :: d :: escape_unpaired rest'
            else unicode_escape c ++ escape_unpaired rest
        | [] => unicode_escape c
        end
      else if is_low_surrogate c then
        unicode_escape c ++ escape_unpaired rest
      else c :: escape_unpaired rest
  end.

(** Its UTF-8 bytes. *)
Definition generation_message (P : jsstring) (T : Z) : bytes :=
  TextEncoder_encode (generation_message_text P T).

(** The revoke message, as text: the JSON object with members [id], [ver],
    [pubkey], [codeHash], [windowStart] in this order. *)
Definition revoke_message_text (P H : jsstring) (T : Z) : jsstring :=
  js "{" ++ quoted (js "id") ++ js ":" ++ quoted (js "actioncodes-revoke")
    ++ js ","
    ++ quoted (js "ver") ++ js ":1,"
    ++ quoted (js "pubkey") ++ js ":" ++ quoted P ++ js ","
    ++ quoted (js "codeHash") ++ js ":" ++ quoted H ++ js ","
    ++ quoted (js "windowStart") ++ js ":" ++ Number_toString T ++ js "}".

(** The message a wallet signs to delegate, as text: the JSON object with
    members [walletPubkey], [delegatedPubkey], [expiresAt], [chain] in
    this order. *)
Definition delegation_proof_text (W D : jsstring) (E : Z) (C : jsstring)
  : jsstring :=
  js "{" ++ quoted (js "walletPubkey") ++ js ":" ++ quoted W ++ js ","
    ++ quoted (js "delegatedPubkey") ++ js ":" ++ quoted D ++ js ","
    ++ quoted (js "expiresAt") ++ js ":" ++ Number_toString E ++ js ","
    ++ quoted (js "chain") ++ js ":" ++ quoted C ++ js "}".

(** A value the guard of the serializers lets through: between 1 and 100
    code units, none of them a double quote, a backslash or a control
    character. *)
Definition guard_passes (s : jsstring) : bool :=
  negb (length s =? 0)%nat && (length s <=? 100)%nat
  && negb (has_unsafe_char s).

(** ** [TextDecoder] *)

Definition is_continuation (b : byte) : bool := (0x80 <=? b) && (b <=? 0xBF).

(** UTF-8 decoding to code points.  On well-formed UTF-8 this is the
    decoded text; a malformed sequence yields U+FFFD and decoding resumes
    at the next byte. *)
Fixpoint utf8_decode (b : bytes) : list N :=
  match b with
  | [] => []
  | b0 :: r0 =>
      if b0 <? 0x80 then b0 :: utf8_decode r0
      else if (0xC2 <=? b0) && (b0 <=? 0xDF) then
        match r0 with
        | b1 :: r1 =>
            if is_continuation b1 then
              N.lor (N.shiftl (N.land b0 0x1F) 6) (N.land b1 0x3F)
                :: utf8_decode r1
            else 0xFFFD :: utf8_decode r0
        | [] => [0xFFFD]
        end
      else if (0xE0 <=? b0) && (b0 <=? 0xEF) then
        match r0 with
        | b1 :: b2 :: r2 =>
            if is_continuation b1 && is_continuation b2
               && negb ((b0 =? 0xE0) && (b1 <? 0xA0))
               && negb ((b0 =? 0xED) && (0x9F <? b1)) then
              N.lor (N.shiftl (N.land b0 0x0F) 12)
                (N.lor (N.shiftl (N.land b1 0x3F) 6) (N.land b2 0x3F))
                :: utf8_decode r2
            else 0xFFFD :: utf8_decode r0
        | _ => 0xFFFD :: utf8_decode r0
        end
      else if (0xF0 <=? b0) && (b0 <=? 0xF4) then
        match r0 with
        | b1 :: b2 :: b3 :: r3 =>
            if is_continuation b1 && is_continuation b2 && is_continuation b3
               && negb ((b0 =? 0xF0) && (b1 <? 0x90))
               && negb ((b0 =? 0xF4) && (0x8F <? b1)) then
              N.lor (N.shiftl (N.land b0 0x07) 18)
                (N.lor (N.shiftl (N.land b1 0x3F) 12)
                   (N.lor (N.shiftl (N.land b2 0x3F) 6) (N.land b3 0x3F)))
                :: utf8_decode r3
            else 0xFFFD :: utf8_decode r0
        | _ => 0xFFFD :: utf8_decode r0
        end
      else 0xFFFD :: utf8_decode r0
  end.

(** A code point as UTF-16 code units. *)
Definition utf16_of_code_point (cp : N) : jsstring :=
  if cp <? 0x10000 then [cp]
  else [0xD800 + N.shiftr (cp - 0x10000) 10;
        0xDC00 + N.land (cp - 0x10000) 0x3FF].

(** [new TextDecoder().decode(data)]. *)
Definition TextDecoder_decode (data : bytes) : jsstring :=
  concat (List.map utf16_of_code_point (utf8_decode data)).

(** ** Data model ([src/types.ts], as its generated documentation lists it) *)

Module ActionCode.
Record t := {
  chain : jsstring;
  code : jsstring;
  pubkey : jsstring;
  timestamp : Z;
  expiresAt : Z;
  signature : jsstring;
}.
End ActionCode.

Module DelegationProof.
Record t := {
  walletPubkey : jsstring;
  delegatedPubkey : jsstring;
  expiresAt : Z;
  chain : jsstring;
  signature : jsstring;
}.
End DelegationProof.

(** [DelegatedActionCode extends ActionCode]: the inherited fields are
    [base]. *)
Module DelegatedActionCode.
Record t := {
  base : ActionCode.t;
  delegationProof : DelegationProof.t;
}.

(** The record with its [code] field replaced. *)
Definition with_code (a : t) (c : jsstring) : t :=
  {| base :=
       {| ActionCode.chain := ActionCode.chain (base a);
          ActionCode.code := c;
          ActionCode.pubkey := ActionCode.pubkey (base a);
          ActionCode.timestamp := ActionCode.timestamp (base a);
          ActionCode.expiresAt := ActionCode.expiresAt (base a);
          ActionCode.signature := ActionCode.signature (base a) |};
     delegationProof := delegationProof a |}.
End DelegatedActionCode.

(** [serializeDelegationProof] of [src/utils/canonical.ts]: the proof
    without its signature; the guard of one field, then the loop over the
    three string fields. *)
Definition delegation_field_guard (field : string) (value : jsstring)
  : result unit :=
  if (length value =? 0)%nat then
    throw (invalidInput field "cannot be empty")
  else if (100 <? length value)%nat then
    throw (invalidInput field "too long (max 100 characters)")
  else if has_unsafe_char value then
    throw (invalidInput field
             "contains invalid characters for identifiers or JSON")
  else Ok tt.

Definition serializeDelegationProof (proof : DelegationProof.t)
  : result bytes :=
  delegation_field_guard "walletPubkey" (DelegationProof.walletPubkey proof) ;;;
  delegation_field_guard "delegatedPubkey"
    (DelegationProof.delegatedPubkey proof) ;;;
  delegation_field_guard "chain" (DelegationProof.chain proof) ;;;
  let json := JSON_stringify
    [ (js "walletPubkey", JString (DelegationProof.walletPubkey proof));
      (js "delegatedPubkey", JString (DelegationProof.delegatedPubkey proof));
      (js "expiresAt", JNumber (DelegationProof.expiresAt proof));
      (js "chain", JString (DelegationProof.chain proof)) ] in
  Ok (TextEncoder_encode json).

Record CodeGenerationConfig := {
  codeLength : Z;
  ttlMs : Z;
  clockSkewMs : option Z;
}.

(** [x ?? d]. *)
Definition nullish {A} (x : option A) (d : A) : A :=
  match x with Some v => v | None => d end.

(** A public key, as the bytes [toBytes()] returns. *)
Definition PublicKey := bytes.

Definition PublicKey_equals (a b : PublicKey) : bool := bool_decide (a = b).

(** ** External libraries *)

(** What the modelled code calls in [bs58], [@solana/web3.js] and
    [tweetnacl].  [None] stands for a call that throws. *)
Class Libraries := {
  (** [bs58.decode(s)] *)
  bs58_decode : jsstring -> option bytes;
  (** [new PublicKey(s)] *)
  PublicKey_new : jsstring -> option PublicKey;
  (** [nacl.sign.detached.verify(message, signature, publicKey)] *)
  nacl_sign_detached_verify : bytes -> bytes -> bytes -> option bool;
}.

(** Modelled from the spec: the crypto primitives of [src/utils/crypto.ts],
    which is not part of the tree: [code_hash] (Crockford base32 of the
    first 80 bits of the SHA-256 of the code) and [hmac_sha256]; and the
    conversion of a signature string to the bytes keying the HMAC, which
    fails on an empty or malformed signature. *)
Class CryptoUtils := {
  codeHash : jsstring -> jsstring;
  hmac_sha256 : bytes -> bytes -> bytes;
  signature_bytes : jsstring -> option bytes;
}.

(** ** Wallet strategy *)

Module WalletStrategy.

(** Modelled from the spec: the bounds of the code length in
    [src/constants.ts], which is not part of the tree. *)
Definition CODE_MIN_LENGTH : Z := 6.
Definition CODE_MAX_LENGTH : Z := 24.

(** Modelled from the spec: [digits_from_digest] of [src/utils/crypto.ts]
    (the digest as an unsigned big-endian integer, reduced modulo [10^n],
    left-padded with zeros to [n] digits). *)
Definition big_endian (digest : bytes) : N :=
  fold_left (fun acc b => acc * 256 + b) digest 0.

Fixpoint decimal_digits (n : nat) (v : N) : jsstring :=
  match n with
  | O => []
  | S k => decimal_digits k (v / 10) ++ [48 + v mod 10]
  end.

Definition digits_from_digest (digest : bytes) (n : nat) : jsstring :=
  decimal_digits n (big_endian digest mod 10 ^ N.of_nat n).

(** The bytes every generation message starts with, up to the opening
    quote of the pubkey. *)
Definition message_head : bytes :=
  TextEncoder_encode
    (js "{" ++ quoted (js "id") ++ js ":" ++ quoted (js "actioncodes")
       ++ js "," ++ quoted (js "ver") ++ js ":1,"
       ++ quoted (js "pubkey") ++ js ":" ++ [dquote]).

(** The bytes between the closing quote of the pubkey and the window
    start. *)
Definition message_middle : bytes :=
  TextEncoder_encode (js "," ++ quoted (js "windowStart") ++ js ":").

Fixpoint strip_prefix (p s : bytes) : option bytes :=
  match p, s with
  | [], _ => Some s
  | x :: p', y :: s' => if x =? y then strip_prefix p' s' else None
  | _ :: _, [] => None
  end.

(** The bytes before the first double quote, and those after it. *)
Fixpoint split_at_quote (s : bytes) : option (bytes * bytes) :=
  match s with
  | [] => None
  | b :: rest =>
      if b =? dquote then Some ([], rest)
      else match split_at_quote rest with
           | Some (before, after) => Some (b :: before, after)
           | None => None
           end
  end.

Definition is_digit (b : byte) : bool := (48 <=? b) && (b <=? 57).

(** Decimal digits up to the closing brace, which ends the message. *)
Fixpoint parse_digits (acc : Z) (seen : bool) (s : bytes) : option Z :=
  match s with
  | [] => None
  | b :: rest =>
      if is_digit b then
        parse_digits (acc * 10 + Z.of_N (b - 48)) true rest
      else if (b =? 125) && seen then
        match rest with [] => Some acc | _ => None end
      else None
  end.

Definition parse_integer (s : bytes) : option Z :=
  match s with
  | 45 :: rest => option_map Z.opp (parse_digits 0 false rest)
  | _ => parse_digits 0 false s
  end.

(** Modelled from the spec: the extraction of [pubkey] and [windowStart]
    from the canonical message in [WalletStrategy.generateCode]
    ([src/strategy/WalletStrategy.ts] is not part of the tree), by
    parsing the JSON contract of the generation message.  Exact on the
    messages [serializeCanonical] produces for pubkeys without escapes. *)
Definition parseCanonicalMessage (message : bytes) : result (jsstring * Z) :=
  match strip_prefix message_head message with
  | None => throw LibraryError
  | Some r1 =>
      match split_at_quote r1 with
      | None => throw LibraryError
      | Some (pk, r2) =>
          match strip_prefix message_middle r2 with
          | None => throw LibraryError
          | Some r3 =>
              match parse_integer r3 with
              | None => throw LibraryError
              | Some t => Ok (TextDecoder_decode pk, t)
              end
          end
      end
  end.

(** Modelled from the spec: the format check of
    [WalletStrategy.validateCode] ([src/strategy/WalletStrategy.ts] is not
    part of the tree): the code is exactly [n] decimal digits. *)
Definition code_format_test (n : nat) (code : jsstring) : bool :=
  (length code =? n)%nat && forallb is_digit code.

Section Strategy.
Context {crypto : CryptoUtils}.
Variable config : CodeGenerationConfig.

(** [codeLength] clamped to [6, 24]. *)
Definition clamped_code_length : nat :=
  Z.to_nat (Z.min CODE_MAX_LENGTH (Z.max CODE_MIN_LENGTH
                                     (codeLength config))).

(** Modelled from the spec: [WalletStrategy.generateCode]
    ([src/strategy/WalletStrategy.ts] is not part of the tree).  The
    pubkey and the window start come from the canonical message, the
    code is the truncation to digits of the HMAC of the message keyed
    by the signature bytes, and the record expires [ttlMs] after the
    window start. *)
Definition generateCode (canonicalMessage : bytes) (chain : jsstring)
    (signature : jsstring) : result ActionCode.t :=
  parts <- parseCanonicalMessage canonicalMessage ;;
  let '(pubkey, windowStart) := parts in
  match signature_bytes signature with
  | None => throw (invalidSignature "Invalid signature")
  | Some sig =>
      let digest := hmac_sha256 sig canonicalMessage in
      Ok {| ActionCode.chain := chain;
            ActionCode.code :=
              digits_from_digest digest clamped_code_length;
            ActionCode.pubkey := pubkey;
            ActionCode.timestamp := windowStart;
            ActionCode.expiresAt := (windowStart + ttlMs config)%Z;
            ActionCode.signature := signature |}
  end.
End Strategy.

End WalletStrategy.

(** ** Delegation strategy ([src/strategy/DelegationStrategy.ts]) *)

Module DelegationStrategy.

(** One year, in milliseconds. *)
Definition maxFuture : Z := 365 * 24 * 60 * 60 * 1000.

(** A code unit admitted in a chain identifier: a lower-case letter, a
    digit or a hyphen. *)
Definition chain_code_unit (c : code_unit) : bool :=
  ((97 <=? c) && (c <=? 122)) || ((48 <=? c) && (c <=? 57)) || (c =? 45).

(** The test of the chain identifier: one or more admitted code units
    and nothing else. *)
Definition chain_regex_test (s : jsstring) : bool :=
  negb (str_falsy s) && forallb chain_code_unit s.

(** The error raised when a code outlives its proof. *)
Definition outlives_error : exn :=
  invalidInput "expiresAt"
    "Action code cannot expire after delegation proof expiration".

Section Strategy.
Context {libs : Libraries} {crypto : CryptoUtils}.
Variable config : CodeGenerationConfig.

(** [validateDelegationProof].  [now] is the clock reading taken
    before the expiration checks.  The [typeof] tests and
    [Number.isInteger] cannot fail on the typed record. *)
Definition validateDelegationProof (now : Z)
    (delegationProof : DelegationProof.t) : result unit :=
  let walletPubkey := DelegationProof.walletPubkey delegationProof in
  let delegatedPubkey := DelegationProof.delegatedPubkey delegationProof in
  let chain := DelegationProof.chain delegationProof in
  let expiresAt := DelegationProof.expiresAt delegationProof in
  let signature := DelegationProof.signature delegationProof in
  if str_falsy walletPubkey then
    throw (invalidInput "walletPubkey"
             "Wallet pubkey is required and must be a string")
  else
  try_catch (from_lib (PublicKey_new walletPubkey))
    (fun _ => throw (invalidInput "walletPubkey"
                       "Invalid wallet pubkey format")) ;;;
  if str_falsy delegatedPubkey then
    throw (invalidInput "delegatedPubkey"
             "Delegated pubkey is required and must be a string")
  else
  try_catch (from_lib (PublicKey_new delegatedPubkey))
    (fun _ => throw (invalidInput "delegatedPubkey"
                       "Invalid delegated pubkey format")) ;;;
  if str_falsy chain then
    throw (invalidInput "chain" "Chain is required and must be a string")
  else if (length chain =? 0)%nat || (50 <? length chain)%nat then
    throw (invalidInput "chain"
             "Chain must be between 1 and 50 characters")
  else if negb (chain_regex_test chain) then
    throw (invalidInput "chain"
             "Chain contains invalid characters (only lowercase letters, numbers, and hyphens allowed)")
  else if (expiresAt <=? 0)%Z then
    throw (invalidInput "expiresAt" "Expiration time must be positive")
  else if (expiresAt >? now + maxFuture)%Z then
    throw (invalidInput "expiresAt"
             "Expiration time is too far in the future")
  else if (expiresAt <? now)%Z then
    throw (expiredCode (js "Delegation proof has expired"))
  else if str_falsy signature then
    throw (invalidInput "signature"
             "Delegation signature is required and must be a string")
  else if (length signature =? 0)%nat || (200 <? length signature)%nat
  then
    throw (invalidInput "signature"
             "Delegation signature must be between 1 and 200 characters")
  else Ok tt.

(** [generateDelegatedCode]. *)
Definition generateDelegatedCode (now : Z)
    (delegationProof : DelegationProof.t) (canonicalMessage : bytes)
    (chain : jsstring) (signature : jsstring)
  : result DelegatedActionCode.t :=
  validateDelegationProof now delegationProof ;;;
  result <- WalletStrategy.generateCode config canonicalMessage chain
              signature ;;
  Ok {| DelegatedActionCode.base := result;
        DelegatedActionCode.delegationProof := delegationProof |}.

(** [validateDelegatedCode].  [currentTime] is the clock reading of the
    function itself, [now] the later one of [validateDelegationProof]. *)
Definition validateDelegatedCode (currentTime now : Z)
    (actionCode : DelegatedActionCode.t) : result unit :=
  let a := DelegatedActionCode.base actionCode in
  let proof := DelegatedActionCode.delegationProof actionCode in
  if (currentTime >? ActionCode.expiresAt a
                      + nullish (clockSkewMs config) 0)%Z
  then throw (expiredCode (ActionCode.code a))
  else
  validateDelegationProof now proof ;;;
  if negb (str_eqb (ActionCode.pubkey a)
             (DelegationProof.delegatedPubkey proof))
  then throw (invalidInput "delegatedPubkey"
                "Action code pubkey does not match delegated signer")
  else if (ActionCode.expiresAt a >? DelegationProof.expiresAt proof)%Z
  then throw outlives_error
  else if str_falsy (DelegationProof.signature proof)
  then throw (missingRequiredField "delegationProof.signature")
  else
  canonicalMessage <-
    serializeCanonical
      {| cmp_pubkey := DelegationProof.delegatedPubkey proof;
         cmp_windowStart := ActionCode.timestamp a |} ;;
  signatureBytes <-
    try_catch (from_lib (bs58_decode (ActionCode.signature a)))
      (fun _ => throw (invalidSignature
                         "Invalid Base58 delegated signature format")) ;;
  delegatedPubkeyBytes <-
    from_lib (bs58_decode (DelegationProof.delegatedPubkey proof)) ;;
  isValidSignature <-
    from_lib (nacl_sign_detached_verify canonicalMessage signatureBytes
                delegatedPubkeyBytes) ;;
  if negb isValidSignature then
    throw (invalidSignature "Delegated signature verification failed")
  else Ok tt.
End Strategy.

End DelegationStrategy.

(** ** Computations that count Ed25519 verifications *)

(** A computation of the adapter: it may throw, and it performs a number
    of calls to [nacl.sign.detached.verify], which the state counts.  The
    count survives a [throw], so that a [catch] does not lose it. *)
Definition M (A : Type) : Type := nat -> result A * nat.

Definition mret {A} (a : A) : M A := fun n => (Ok a, n).
Definition mthrow {A} (e : exn) : M A := fun n => (throw e, n).
Definition lift {A} (r : result A) : M A := fun n => (r, n).

Definition mbind {A B} (m : M A) (k : A -> M B) : M B :=
  fun n =>
    match m n with
    | (inl e, n') => (inl e, n')
    | (inr a, n') => k a n'
    end.

(** [try { m } catch { handler }] *)
Definition mcatch {A} (m : M A) (handler : exn -> M A) : M A :=
  fun n =>
    match m n with
    | (inl e, n') => handler e n'
    | (inr a, n') => (inr a, n')
    end.

(** The outcome and the number of verifications of a run from zero. *)
Definition outcome {A} (m : M A) : result A := fst (m O).
Definition verifications {A} (m : M A) : nat := snd (m O).

Declare Scope adapter_scope.
Delimit Scope adapter_scope with adapter.
Notation "x <- m ;; k" := (mbind m (fun x => k))
  (at level 100, m at next level, right associativity) : adapter_scope.

(** ** Values as they arrive at run time *)

(** The adapter predicates guard against absent fields, so their inputs
    are records whose fields may be [undefined] ([None]).  A field that is
    present has the type [src/types.ts] declares. *)
Module Untyped.

Record DelegationProof := {
  walletPubkey : option jsstring;
  delegatedPubkey : option jsstring;
  expiresAt : option Z;
  chain : option jsstring;
  signature : option jsstring;
}.

Record ActionCode := {
  ac_chain : option jsstring;
  code : jsstring;
  pubkey : option jsstring;
  timestamp : option Z;
  ac_expiresAt : option Z;
  ac_signature : option jsstring;
  delegationProof : option DelegationProof;
}.

(** A present and truthy string: neither [undefined] nor empty. *)
Definition truthy_string (v : option jsstring) : option jsstring :=
  match v with
  | Some (c :: s) => Some (c :: s)
  | _ => None
  end.

(** A present and truthy number: neither [undefined] nor zero. *)
Definition truthy_number (v : option Z) : option Z :=
  match v with
  | Some 0%Z => None
  | Some z => Some z
  | None => None
  end.

(** [v !== s] *)
Definition differs (v : option jsstring) (s : jsstring) : bool :=
  match v with
  | Some x => negb (str_eqb x s)
  | None => true
  end.

Definition of_proof (p : DelegationProof.t) : DelegationProof :=
  {| walletPubkey := Some (DelegationProof.walletPubkey p);
     delegatedPubkey := Some (DelegationProof.delegatedPubkey p);
     expiresAt := Some (DelegationProof.expiresAt p);
     chain := Some (DelegationProof.chain p);
     signature := Some (DelegationProof.signature p) |}.

Definition of_action_code (a : ActionCode.t) : ActionCode :=
  {| ac_chain := Some (ActionCode.chain a);
     code := ActionCode.code a;
     pubkey := Some (ActionCode.pubkey a);
     timestamp := Some (ActionCode.timestamp a);
     ac_expiresAt := Some (ActionCode.expiresAt a);
     ac_signature := Some (ActionCode.signature a);
     delegationProof := None |}.

Definition of_delegated (a : DelegatedActionCode.t) : ActionCode :=
  {| ac_chain := Some (ActionCode.chain (DelegatedActionCode.base a));
     code := ActionCode.code (DelegatedActionCode.base a);
     pubkey := Some (ActionCode.pubkey (DelegatedActionCode.base a));
     timestamp := Some (ActionCode.timestamp (DelegatedActionCode.base a));
     ac_expiresAt :=
       Some (ActionCode.expiresAt (DelegatedActionCode.base a));
     ac_signature :=
       Some (ActionCode.signature (DelegatedActionCode.base a));
     delegationProof :=
       Some (of_proof (DelegatedActionCode.delegationProof a)) |}.

End Untyped.

(** ** Solana transactions ([@solana/web3.js], [@solana/spl-memo]) *)

Record AccountMeta := {
  am_pubkey : option PublicKey;
  am_isSigner : bool;
  am_isWritable : bool;
}.

Record TransactionInstruction := {
  ix_keys : list AccountMeta;
  ix_programId : PublicKey;
  ix_data : bytes;
}.

(** A legacy [Transaction]. *)
Record Transaction := {
  tx_instructions : list TransactionInstruction;
  tx_signatures : list (PublicKey * option bytes);
  tx_recentBlockhash : option jsstring;
  tx_feePayer : option PublicKey;
}.

Record MessageHeader := {
  numRequiredSignatures : nat;
  numReadonlySignedAccounts : nat;
  numReadonlyUnsignedAccounts : nat;
}.

Record MessageCompiledInstruction := {
  programIdIndex : nat;
  accountKeyIndexes : list nat;
  cix_data : bytes;
}.

Record MessageAddressTableLookup := {
  accountKey : PublicKey;
  writableIndexes : list nat;
  readonlyIndexes : list nat;
}.

(** A message, through the accessors both message classes offer. *)
Record Message := {
  header : MessageHeader;
  staticAccountKeys : list PublicKey;
  recentBlockhash : jsstring;
  compiledInstructions : list MessageCompiledInstruction;
  addressTableLookups : list MessageAddressTableLookup;
}.

(** [message instanceof MessageV0], or a legacy [Message]. *)
Inductive VersionedMessage :=
  | MessageV0 (m : Message)
  | MessageLegacy (m : Message).

Definition message_of (vm : VersionedMessage) : Message :=
  match vm with MessageV0 m => m | MessageLegacy m => m end.

Record VersionedTransaction := {
  vtx_message : VersionedMessage;
  vtx_signatures : list bytes;
}.

(** [new Uint8Array(64)] *)
Definition zero_signature : bytes := repeat 0 64.

(** [new VersionedTransaction(message)]: without a second argument the
    constructor fills in one zero signature per required signer. *)
Definition new_VersionedTransaction (m : Message) : VersionedTransaction :=
  {| vtx_message := MessageV0 m;
     vtx_signatures :=
       repeat zero_signature (numRequiredSignatures (header m)) |}.

Inductive SolanaTransaction :=
  | Legacy (tx : Transaction)
  | Versioned (vtx : VersionedTransaction).

Record AddressLookupTableAccount := {
  alt_key : PublicKey;
  alt_addresses : list PublicKey;
}.

(** A decompiled [TransactionMessage]. *)
Record TransactionMessage := {
  payerKey : PublicKey;
  tm_instructions : list TransactionInstruction;
  tm_recentBlockhash : jsstring;
}.

(** [connection.getAddressLookupTable(key)], awaited: [None] is a
    rejection, [Some None] a response whose [value] is [null]. *)
Definition Connection : Type :=
  PublicKey -> option (option AddressLookupTableAccount).

(** The calls into [@solana/web3.js] and [@solana/spl-memo] that parse,
    compile and serialize transactions; the argument of the two parsers is
    the base64 string.  [None] stands for a call that throws. *)
Class Web3 := {
  MEMO_PROGRAM_ID : PublicKey;
  VersionedTransaction_deserialize : jsstring -> option VersionedTransaction;
  VersionedTransaction_serialize : VersionedTransaction -> option jsstring;
  Transaction_from : jsstring -> option Transaction;
  Transaction_serialize : Transaction -> option jsstring;
  TransactionMessage_decompile :
    Message -> list AddressLookupTableAccount -> option TransactionMessage;
  compileToV0Message :
    TransactionMessage -> list AddressLookupTableAccount -> option Message;
}.

(** ** Protocol meta *)

(** [ProtocolMetaFields].  [ver] is typed as the literal 2, and is a
    number at run time; the payload [p] is kept as its compact JSON. *)
Record ProtocolMetaFields := {
  ver : Z;
  id : jsstring;
  int : jsstring;
  iss : option jsstring;
  p : option jsstring;
}.

(** Modelled from the spec: the codec of [src/utils/protocolMeta.ts],
    which is not part of the tree.  [buildProtocolMeta] serializes the
    fields or throws; [parseProtocolMeta] returns the fields, [null], or
    throws on a malformed string. *)
Class ProtocolMetaCodec := {
  buildProtocolMeta : ProtocolMetaFields -> result jsstring;
  parseProtocolMeta : jsstring -> result (option ProtocolMetaFields);
}.

(** ** Solana adapter: signature predicates
       ([src/adapters/SolanaAdapter.ts]) *)

Module SolanaAdapter.

Definition ADAPTER_CHAIN_NAME : jsstring := js "solana".

Section Predicates.
Context {libs : Libraries} {crypto : CryptoUtils}.

#[local] Open Scope adapter_scope.

(** [normalizePubkey] on a string. *)
Definition normalizePubkey (input : jsstring) : result PublicKey :=
  from_lib (PublicKey_new input).

(** One call of [nacl.sign.detached.verify]. *)
Definition verify (message signature publicKey : bytes) : M bool :=
  fun n =>
    (from_lib (nacl_sign_detached_verify message signature publicKey), S n).

Definition bad_lengths (sigBytes pubBytes : bytes) : bool :=
  negb (length sigBytes =? 64)%nat || negb (length pubBytes =? 32)%nat.

(** [verifyWithWallet] *)
Definition verifyWithWallet (actionCode : Untyped.ActionCode) : M bool :=
  if Untyped.differs (Untyped.ac_chain actionCode) ADAPTER_CHAIN_NAME
  then mret false
  else
  match Untyped.truthy_string (Untyped.pubkey actionCode),
        Untyped.truthy_number (Untyped.timestamp actionCode),
        Untyped.truthy_string (Untyped.ac_signature actionCode) with
  | Some pubkey, Some timestamp, Some signature =>
      mcatch
        (message <- lift (serializeCanonical
                            {| cmp_pubkey := pubkey;
                               cmp_windowStart := timestamp |}) ;;
         pub <- lift (normalizePubkey pubkey) ;;
         sigBytes <- lift (from_lib (bs58_decode signature)) ;;
         let pubBytes := pub in
         if bad_lengths sigBytes pubBytes then mret false
         else verify message sigBytes pubBytes)
        (fun _ => mret false)
  | _, _, _ => mret false
  end.

(** The basic validation of a proof shared by the two delegated
    predicates: every field present and truthy. *)
Definition truthy_proof (proof : Untyped.DelegationProof)
  : option DelegationProof.t :=
  match Untyped.truthy_string (Untyped.walletPubkey proof),
        Untyped.truthy_string (Untyped.delegatedPubkey proof),
        Untyped.truthy_string (Untyped.chain proof),
        Untyped.truthy_number (Untyped.expiresAt proof),
        Untyped.truthy_string (Untyped.signature proof) with
  | Some w, Some d, Some c, Some e, Some s =>
      Some {| DelegationProof.walletPubkey := w;
              DelegationProof.delegatedPubkey := d;
              DelegationProof.expiresAt := e;
              DelegationProof.chain := c;
              DelegationProof.signature := s |}
  | _, _, _, _, _ => None
  end.

(** [verifyWithDelegation].  The proof is read without a guard: on an
    absent proof the first field access throws. *)
Definition verifyWithDelegation (now : Z)
    (delegatedActionCode : Untyped.ActionCode) : M bool :=
  if Untyped.differs (Untyped.ac_chain delegatedActionCode)
       ADAPTER_CHAIN_NAME
  then mret false
  else
  match Untyped.truthy_string (Untyped.pubkey delegatedActionCode),
        Untyped.truthy_number (Untyped.timestamp delegatedActionCode),
        Untyped.truthy_string (Untyped.ac_signature delegatedActionCode) with
  | Some pubkey, Some timestamp, Some signature =>
      match Untyped.delegationProof delegatedActionCode with
      | None => mthrow TypeError
      | Some untyped_proof =>
          match truthy_proof untyped_proof with
          | None => mret false
          | Some proof =>
              if negb (str_eqb (DelegationProof.chain proof)
                         ADAPTER_CHAIN_NAME)
              then mret false
              else if negb (str_eqb pubkey
                              (DelegationProof.delegatedPubkey proof))
              then mret false
              else if (DelegationProof.expiresAt proof <? now)%Z
              then mret false
              else
              mcatch
                (delegationMessage <- lift (serializeDelegationProof proof) ;;
                 walletPub <-
                   lift (normalizePubkey
                           (DelegationProof.walletPubkey proof)) ;;
                 walletSigBytes <-
                   lift (from_lib
                           (bs58_decode (DelegationProof.signature proof))) ;;
                 let walletPubBytes := walletPub in
                 canonicalMessage <-
                   lift (serializeCanonical
                           {| cmp_pubkey :=
                                DelegationProof.delegatedPubkey proof;
                              cmp_windowStart := timestamp |}) ;;
                 delegatedPub <-
                   lift (normalizePubkey
                           (DelegationProof.delegatedPubkey proof)) ;;
                 delegatedSigBytes <-
                   lift (from_lib (bs58_decode signature)) ;;
                 let delegatedPubBytes := delegatedPub in
                 if bad_lengths walletSigBytes walletPubBytes
                 then mret false
                 else if bad_lengths delegatedSigBytes delegatedPubBytes
                 then mret false
                 else
                 delegationProofOk <-
                   verify delegationMessage walletSigBytes walletPubBytes ;;
                 canonicalMessageOk <-
                   verify canonicalMessage delegatedSigBytes
                     delegatedPubBytes ;;
                 mret (delegationProofOk && canonicalMessageOk))
                (fun _ => mret false)
          end
      end
  | _, _, _ => mret false
  end.

(** [verifyRevokeWithWallet] *)
Definition verifyRevokeWithWallet (actionCode : Untyped.ActionCode)
    (revokeSignature : option jsstring) : M bool :=
  if Untyped.differs (Untyped.ac_chain actionCode) ADAPTER_CHAIN_NAME
  then mret false
  else
  match Untyped.truthy_string (Untyped.pubkey actionCode),
        Untyped.truthy_number (Untyped.timestamp actionCode),
        Untyped.truthy_string revokeSignature with
  | Some pubkey, Some timestamp, Some revokeSignature =>
      mcatch
        (message <- lift (serializeCanonicalRevoke
                            {| crp_pubkey := pubkey;
                               crp_codeHash :=
                                 codeHash (Untyped.code actionCode);
                               crp_windowStart := timestamp |}) ;;
         pub <- lift (normalizePubkey pubkey) ;;
         sigBytes <- lift (from_lib (bs58_decode revokeSignature)) ;;
         let pubBytes := pub in
         if bad_lengths sigBytes pubBytes then mret false
         else verify message sigBytes pubBytes)
        (fun _ => mret false)
  | _, _, _ => mret false
  end.

(** [verifyRevokeWithDelegation].  Here an absent proof is one of the
    early [return false] cases. *)
Definition verifyRevokeWithDelegation (now : Z)
    (delegatedActionCode : Untyped.ActionCode)
    (revokeSignature : option jsstring) : M bool :=
  if Untyped.differs (Untyped.ac_chain delegatedActionCode)
       ADAPTER_CHAIN_NAME
  then mret false
  else
  match Untyped.truthy_string (Untyped.pubkey delegatedActionCode),
        Untyped.truthy_number (Untyped.timestamp delegatedActionCode),
        Untyped.truthy_string (Untyped.ac_signature delegatedActionCode),
        Untyped.delegationProof delegatedActionCode with
  | Some pubkey, Some timestamp, Some _, Some untyped_proof =>
      match truthy_proof untyped_proof with
      | None => mret false
      | Some proof =>
          if negb (str_eqb (DelegationProof.chain proof) ADAPTER_CHAIN_NAME)
          then mret false
          else if negb (str_eqb pubkey
                          (DelegationProof.delegatedPubkey proof))
          then mret false
          else if (DelegationProof.expiresAt proof <? now)%Z
          then mret false
          else
          mcatch
            (delegationMessage <- lift (serializeDelegationProof proof) ;;
             walletPub <-
               lift (normalizePubkey (DelegationProof.walletPubkey proof)) ;;
             walletSigBytes <-
               lift (from_lib
                       (bs58_decode (DelegationProof.signature proof))) ;;
             let walletPubBytes := walletPub in
             revokeMessage <-
               lift (serializeCanonicalRevoke
                       {| crp_pubkey := DelegationProof.delegatedPubkey proof;
                          crp_codeHash :=
                            codeHash (Untyped.code delegatedActionCode);
                          crp_windowStart := timestamp |}) ;;
             delegatedPub <-
               lift (normalizePubkey
                       (DelegationProof.delegatedPubkey proof)) ;;
             delegatedSigBytes <-
               match revokeSignature with
               | Some s => lift (from_lib (bs58_decode s))
               | None => mthrow TypeError
               end ;;
             let delegatedPubBytes := delegatedPub in
             if bad_lengths walletSigBytes walletPubBytes then mret false
             else if bad_lengths delegatedSigBytes delegatedPubBytes
             then mret false
             else
             delegationProofOk <-
               verify delegationMessage walletSigBytes walletPubBytes ;;
             revokeMessageOk <-
               verify revokeMessage delegatedSigBytes delegatedPubBytes ;;
             mret (delegationProofOk && revokeMessageOk))
            (fun _ => mret false)
      end
  | _, _, _, _ => mret false
  end.

Definition is_ok {A} (r : result A) : bool :=
  match r with inr _ => true | inl _ => false end.

(** The key and the signature decode, to 32 and 64 bytes. *)
Definition decodes (signature pubkey : jsstring) : bool :=
  match PublicKey_new pubkey, bs58_decode signature with
  | Some pubBytes, Some sigBytes => negb (bad_lengths sigBytes pubBytes)
  | _, _ => false
  end.

(** The checks [verifyWithWallet] makes before it verifies: chain,
    required fields, canonical message, decoding and lengths. *)
Definition wallet_checks_pass (actionCode : Untyped.ActionCode) : bool :=
  negb (Untyped.differs (Untyped.ac_chain actionCode) ADAPTER_CHAIN_NAME)
  && match Untyped.truthy_string (Untyped.pubkey actionCode),
           Untyped.truthy_number (Untyped.timestamp actionCode),
           Untyped.truthy_string (Untyped.ac_signature actionCode) with
     | Some pubkey, Some timestamp, Some signature =>
         is_ok (serializeCanonical {| cmp_pubkey := pubkey;
                                      cmp_windowStart := timestamp |})
         && decodes signature pubkey
     | _, _, _ => false
     end.

(** The same for [verifyRevokeWithWallet]. *)
Definition revoke_wallet_checks_pass (actionCode : Untyped.ActionCode)
    (revokeSignature : option jsstring) : bool :=
  negb (Untyped.differs (Untyped.ac_chain actionCode) ADAPTER_CHAIN_NAME)
  && match Untyped.truthy_string (Untyped.pubkey actionCode),
           Untyped.truthy_number (Untyped.timestamp actionCode),
           Untyped.truthy_string revokeSignature with
     | Some pubkey, Some timestamp, Some signature =>
         is_ok (serializeCanonicalRevoke
                  {| crp_pubkey := pubkey;
                     crp_codeHash := codeHash (Untyped.code actionCode);
                     crp_windowStart := timestamp |})
         && decodes signature pubkey
     | _, _, _ => false
     end.

(** The checks on the proof shared by the delegated predicates: present
    and truthy fields, chain, binding to the code's pubkey, expiration,
    serialization, decoding and lengths of the owner's signature. *)
Definition proof_checks_pass (now : Z) (pubkey : jsstring)
    (untyped_proof : option Untyped.DelegationProof)
  : option DelegationProof.t :=
  match untyped_proof with
  | Some up =>
      match truthy_proof up with
      | Some proof =>
          if str_eqb (DelegationProof.chain proof) ADAPTER_CHAIN_NAME
             && str_eqb pubkey (DelegationProof.delegatedPubkey proof)
             && negb (DelegationProof.expiresAt proof <? now)%Z
             && is_ok (serializeDelegationProof proof)
             && decodes (DelegationProof.signature proof)
                  (DelegationProof.walletPubkey proof)
          then Some proof else None
      | None => None
      end
  | None => None
  end.

(** The checks [verifyWithDelegation] makes before it verifies. *)
Definition delegation_checks_pass (now : Z)
    (delegatedActionCode : Untyped.ActionCode) : bool :=
  negb (Untyped.differs (Untyped.ac_chain delegatedActionCode)
          ADAPTER_CHAIN_NAME)
  && match Untyped.truthy_string (Untyped.pubkey delegatedActionCode),
           Untyped.truthy_number (Untyped.timestamp delegatedActionCode),
           Untyped.truthy_string
             (Untyped.ac_signature delegatedActionCode) with
     | Some pubkey, Some timestamp, Some signature =>
         match proof_checks_pass now pubkey
                 (Untyped.delegationProof delegatedActionCode) with
         | Some proof =>
             is_ok (serializeCanonical
                      {| cmp_pubkey := DelegationProof.delegatedPubkey proof;
                         cmp_windowStart := timestamp |})
             && decodes signature (DelegationProof.delegatedPubkey proof)
         | None => false
         end
     | _, _, _ => false
     end.

(** The checks [verifyRevokeWithDelegation] makes before it verifies. *)
Definition revoke_delegation_checks_pass (now : Z)
    (delegatedActionCode : Untyped.ActionCode)
    (revokeSignature : option jsstring) : bool :=
  negb (Untyped.differs (Untyped.ac_chain delegatedActionCode)
          ADAPTER_CHAIN_NAME)
  && match Untyped.truthy_string (Untyped.pubkey delegatedActionCode),
           Untyped.truthy_number (Untyped.timestamp delegatedActionCode),
           Untyped.truthy_string
             (Untyped.ac_signature delegatedActionCode),
           revokeSignature with
     | Some pubkey, Some timestamp, Some _, Some signature =>
         match proof_checks_pass now pubkey
                 (Untyped.delegationProof delegatedActionCode) with
         | Some proof =>
             is_ok (serializeCanonicalRevoke
                      {| crp_pubkey := DelegationProof.delegatedPubkey proof;
                         crp_codeHash :=
                           codeHash (Untyped.code delegatedActionCode);
                         crp_windowStart := timestamp |})
             && decodes signature (DelegationProof.delegatedPubkey proof)
         | None => false
         end
     | _, _, _, _ => false
     end.

End Predicates.

(** *** Transaction meta *)

Section Transactions.
Context {web3 : Web3} {codec : ProtocolMetaCodec} {crypto : CryptoUtils}.

#[local] Open Scope result_scope.

(** [createMemoInstruction(memo)] of [@solana/spl-memo], without signer
    keys. *)
Definition createMemoInstruction (memo : jsstring) : TransactionInstruction :=
  {| ix_keys := [];
     ix_programId := MEMO_PROGRAM_ID;
     ix_data := TextEncoder_encode memo |}.

(** [createProtocolMetaIx] *)
Definition createProtocolMetaIx (meta : ProtocolMetaFields)
  : result TransactionInstruction :=
  metaString <- buildProtocolMeta meta ;;
  Ok (createMemoInstruction metaString).

(** [Transaction.from(Buffer.from(txString, "base64"))] as a legacy
    transaction. *)
Definition legacy_from (txString : jsstring) : result SolanaTransaction :=
  tx <- from_lib (Transaction_from txString) ;;
  Ok (Legacy tx).

(** [deserializeTransaction]: versioned first, legacy when the message is
    not a [MessageV0] or when the versioned parser throws. *)
Definition deserializeTransaction (txString : jsstring)
  : result SolanaTransaction :=
  try_catch
    (versionedTx <- from_lib (VersionedTransaction_deserialize txString) ;;
     match vtx_message versionedTx with
     | MessageV0 _ => Ok (Versioned versionedTx)
     | MessageLegacy _ => legacy_from txString
     end)
    (fun _ =>
       try_catch (legacy_from txString)
         (fun _ => throw (invalidTransactionFormat
                            "Invalid base64 transaction format"))).

(** The memo instruction rebuilt from a compiled one, when its program
    is the memo program. *)
Definition memo_of_compiled (msg : Message)
    (ix : MessageCompiledInstruction) : option TransactionInstruction :=
  match staticAccountKeys msg !! programIdIndex ix with
  | Some pid =>
      if PublicKey_equals pid MEMO_PROGRAM_ID then
        Some {| ix_keys :=
                  List.map (fun i =>
                              {| am_pubkey := staticAccountKeys msg !! i;
                                 am_isSigner := false;
                                 am_isWritable := false |})
                    (accountKeyIndexes ix);
                ix_programId := pid;
                ix_data := cix_data ix |}
      else None
  | None => None
  end.

(** [getMemoInstructions] *)
Definition getMemoInstructions (tx : SolanaTransaction)
  : list TransactionInstruction :=
  match tx with
  | Legacy tx =>
      List.filter (fun ix => PublicKey_equals (ix_programId ix)
                               MEMO_PROGRAM_ID)
        (tx_instructions tx)
  | Versioned vtx =>
      match vtx_message vtx with
      | MessageV0 msg =>
          omap (memo_of_compiled msg) (compiledInstructions msg)
      | MessageLegacy _ => []
      end
  end.

(** The loop of [getProtocolMeta]: the first memo whose text parses as
    protocol meta; a memo on which the parser throws is skipped. *)
Fixpoint first_protocol_meta (memos : list TransactionInstruction)
  : option jsstring :=
  match memos with
  | [] => None
  | ix :: rest =>
      let s := TextDecoder_decode (ix_data ix) in
      match parseProtocolMeta s with
      | inr (Some _) => Some s
      | _ => first_protocol_meta rest
      end
  end.

(** [getProtocolMeta] *)
Definition getProtocolMeta (txString : jsstring) : option jsstring :=
  match deserializeTransaction txString with
  | inr tx => first_protocol_meta (getMemoInstructions tx)
  | inl _ => None
  end.

(** [parseMeta] *)
Definition parseMeta (txString : jsstring)
  : result (option ProtocolMetaFields) :=
  match getProtocolMeta txString with
  | None => Ok None
  | Some s => if str_falsy s then Ok None else parseProtocolMeta s
  end.

(** [verifyTransactionMatchesCode] *)
Definition verifyTransactionMatchesCode (now : Z) (actionCode : ActionCode.t)
    (txString : jsstring) : result unit :=
  let currentTime := now in
  if (currentTime >? ActionCode.expiresAt actionCode)%Z then
    throw (expiredCode (ActionCode.code actionCode))
  else
  meta <- parseMeta txString ;;
  match meta with
  | None => throw missingMeta
  | Some meta =>
      if negb (ver meta =? 2)%Z then
        throw (metaMismatch (js "2") (Number_toString (ver meta)) "ver")
      else
      let expectedCodeHash := codeHash (ActionCode.code actionCode) in
      if negb (str_eqb (id meta) expectedCodeHash) then
        throw (metaMismatch expectedCodeHash (id meta) "id")
      else if negb (str_eqb (int meta) (ActionCode.pubkey actionCode)) then
        throw (metaMismatch (ActionCode.pubkey actionCode) (int meta) "int")
      else Ok tt
  end.

(** The lookup tables of a message, resolved over the connection: a
    rejection is rethrown as a protocol error, a table without value is
    left out. *)
Fixpoint resolve_lookup_tables (connection : Connection)
    (lookups : list MessageAddressTableLookup)
  : result (list AddressLookupTableAccount) :=
  match lookups with
  | [] => Ok []
  | lookup :: rest =>
      match connection (accountKey lookup) with
      | None =>
          throw (invalidTransactionFormat
                   "Failed to resolve address lookup table")
      | Some value =>
          tables <- resolve_lookup_tables connection rest ;;
          Ok (match value with
              | Some table => table :: tables
              | None => tables
              end)
      end
  end.

(** [legacyTx.add(metaIx)] and the serialization of the result. *)
Definition attach_legacy (txString : jsstring)
    (metaIx : TransactionInstruction)
  : result (SolanaTransaction * jsstring) :=
  legacyTx <- from_lib (Transaction_from txString) ;;
  let legacyTx' :=
    {| tx_instructions := tx_instructions legacyTx ++ [metaIx];
       tx_signatures := tx_signatures legacyTx;
       tx_recentBlockhash := tx_recentBlockhash legacyTx;
       tx_feePayer := tx_feePayer legacyTx |} in
  out <- from_lib (Transaction_serialize legacyTx') ;;
  Ok (Legacy legacyTx', out).

(** The index of the first key equal to the memo program. *)
Fixpoint findIndex_memo (keys : list PublicKey) : nat :=
  match keys with
  | [] => O
  | k :: rest =>
      if PublicKey_equals k MEMO_PROGRAM_ID then O
      else S (findIndex_memo rest)
  end.

(** The body that the two revisions of [attachProtocolMeta] share.  They
    differ in [getProtocolMeta] and in the signatures given to the new
    versioned transaction: [signatures_of versionedTx newMessage].  The
    result pairs the transaction that was built with the base64 string the
    function returns. *)
Definition attachProtocolMeta_with
    (getProtocolMeta : jsstring -> option jsstring)
    (signatures_of : VersionedTransaction -> Message -> list bytes)
    (txString : jsstring) (meta : ProtocolMetaFields)
    (connection : option Connection)
  : result (SolanaTransaction * jsstring) :=
  match getProtocolMeta txString with
  | Some (_ :: _) =>
      throw (invalidTransactionFormat
               "Transaction already contains protocol meta. Cannot attach additional protocol meta.")
  | _ =>
      metaIx <- createProtocolMetaIx meta ;;
      try_catch
        (versionedTx <- from_lib (VersionedTransaction_deserialize txString) ;;
         match vtx_message versionedTx with
         | MessageV0 msg =>
             let hasAddressTableLookups :=
               negb (length (addressTableLookups msg) =? 0)%nat in
             let numStaticAccounts := length (staticAccountKeys msg) in
             let referencesLookupAccounts :=
               existsb (fun ix =>
                          existsb (fun idx => (numStaticAccounts <=? idx)%nat)
                            (accountKeyIndexes ix))
                 (compiledInstructions msg) in
             if hasAddressTableLookups && referencesLookupAccounts then
               match connection with
               | None =>
                   throw (invalidTransactionFormat
                            "Connection required: Transaction uses address lookup tables")
               | Some connection =>
                   addressLookupTableAccounts <-
                     resolve_lookup_tables connection
                       (addressTableLookups msg) ;;
                   decompiledMessage <-
                     from_lib (TransactionMessage_decompile msg
                                 addressLookupTableAccounts) ;;
                   let decompiledMessage' :=
                     {| payerKey := payerKey decompiledMessage;
                        tm_instructions :=
                          tm_instructions decompiledMessage ++ [metaIx];
                        tm_recentBlockhash :=
                          tm_recentBlockhash decompiledMessage |} in
                   recompiledMessage <-
                     from_lib (compileToV0Message decompiledMessage'
                                 addressLookupTableAccounts) ;;
                   let newTx :=
                     {| vtx_message := MessageV0 recompiledMessage;
                        vtx_signatures :=
                          signatures_of versionedTx recompiledMessage |} in
                   out <- from_lib (VersionedTransaction_serialize newTx) ;;
                   Ok (Versioned newTx, out)
               end
             else
               let newStaticKeys :=
                 if existsb (fun k => PublicKey_equals k MEMO_PROGRAM_ID)
                      (staticAccountKeys msg)
                 then staticAccountKeys msg
                 else staticAccountKeys msg ++ [MEMO_PROGRAM_ID] in
               let compiledIx :=
                 {| programIdIndex := findIndex_memo newStaticKeys;
                    accountKeyIndexes := [];
                    cix_data := ix_data metaIx |} in
               let newMsg :=
                 {| header := header msg;
                    staticAccountKeys := newStaticKeys;
                    recentBlockhash := recentBlockhash msg;
                    compiledInstructions :=
                      compiledInstructions msg ++ [compiledIx];
                    addressTableLookups := addressTableLookups msg |} in
               let newTx :=
                 {| vtx_message := MessageV0 newMsg;
                    vtx_signatures := signatures_of versionedTx newMsg |} in
               out <- from_lib (VersionedTransaction_serialize newTx) ;;
               Ok (Versioned newTx, out)
         | MessageLegacy _ => attach_legacy txString metaIx
         end)
        (fun error =>
           if is_protocol_error error then throw error
           else
             try_catch (attach_legacy txString metaIx)
               (fun _ => throw (invalidTransactionFormat
                                  "Invalid base64 transaction format")))
  end.

(** [attachProtocolMeta] of [src/adapters/SolanaAdapter.ts]: the new
    transaction is first built with default signatures, then given the
    signatures of the input ([newTx.signatures = versionedTx.signatures]). *)
Definition attachProtocolMeta_built :=
  attachProtocolMeta_with getProtocolMeta
    (fun versionedTx _ => vtx_signatures versionedTx).

Definition attachProtocolMeta (txString : jsstring)
    (meta : ProtocolMetaFields) (connection : option Connection)
  : result jsstring :=
  built <- attachProtocolMeta_built txString meta connection ;;
  Ok (snd built).

End Transactions.

(** *** Signers *)

Section Signers.
Context {libs : Libraries} {web3 : Web3} {codec : ProtocolMetaCodec}.

#[local] Open Scope result_scope.

(** The keys of a legacy transaction that carry a signature, in order. *)
Definition legacy_signers (tx : Transaction) : list PublicKey :=
  omap (fun sig => match snd sig with
                   | Some _ => Some (fst sig)
                   | None => None
                   end)
    (tx_signatures tx).

(** The static keys at the indexes below [numRequiredSignatures]. *)
Definition versioned_signers (msg : Message) : list PublicKey :=
  omap (fun i => staticAccountKeys msg !! i)
    (seq 0 (numRequiredSignatures (header msg))).

(** The two flags of the loop over the signers and the two checks that
    follow it; the issuer is present when the meta names one. *)
Definition check_signers (intended : jsstring) (intendedPubkey : PublicKey)
    (issuer : option (jsstring * PublicKey)) (signers : list PublicKey)
  : result unit :=
  let isSignedByIntended :=
    existsb (fun key => PublicKey_equals key intendedPubkey) signers in
  if negb isSignedByIntended then
    throw (transactionNotSignedByIntendedOwner intended)
  else
    match issuer with
    | Some (issuer, issuerPubkey) =>
        let isSignedByIssuer :=
          existsb (fun key => PublicKey_equals key issuerPubkey) signers in
        if negb isSignedByIssuer then
          throw (transactionNotSignedByIssuer issuer)
        else Ok tt
    | None => Ok tt
    end.

(** [verifyTransactionSignedByIntentOwner] *)
Definition verifyTransactionSignedByIntentOwner (txString : jsstring)
  : result unit :=
  meta <- parseMeta txString ;;
  match meta with
  | None => throw missingMeta
  | Some meta =>
      let intended := int meta in
      if str_falsy intended then
        throw (invalidMetaFormat "Missing 'int' (intendedFor) field")
      else
      intendedPubkey <-
        try_catch (from_lib (PublicKey_new intended))
          (fun _ => throw (invalidPubkeyFormat intended
                             "Invalid public key format")) ;;
      issuer <-
        match Untyped.truthy_string (iss meta) with
        | Some issuer =>
            try_catch
              (issuerPubkey <- from_lib (PublicKey_new issuer) ;;
               Ok (Some (issuer, issuerPubkey)))
              (fun _ => throw (invalidPubkeyFormat issuer
                                 "Invalid public key format"))
        | None => Ok None
        end ;;
      tx <- deserializeTransaction txString ;;
      match tx with
      | Legacy tx =>
          check_signers intended intendedPubkey issuer (legacy_signers tx)
      | Versioned vtx =>
          match vtx_message vtx with
          | MessageV0 msg =>
              check_signers intended intendedPubkey issuer
                (versioned_signers msg)
          | MessageLegacy _ =>
              throw (invalidTransactionFormat
                       "Unsupported transaction format")
          end
      end
  end.

(** The signers of a transaction, as
    [verifyTransactionSignedByIntentOwner] collects them. *)
Definition signers (tx : SolanaTransaction) : list PublicKey :=
  match tx with
  | Legacy tx => legacy_signers tx
  | Versioned vtx => versioned_signers (message_of (vtx_message vtx))
  end.

(** [verifyMessageSignedByIntentOwner].  [is_verification_failure error]
    is the test of the [catch] clause: the error is an [Error] whose
    message includes the text of the failed verification.  The texts of
    the messages are those of [src/errors.ts] and of the libraries, which
    are not part of the tree. *)
Definition verifyMessageSignedByIntentOwner
    (is_verification_failure : exn -> bool)
    (message signature pubkey : jsstring) : result unit :=
  try_catch
    (let messageBytes := TextEncoder_encode message in
     signatureBytes <- from_lib (bs58_decode signature) ;;
     pubkeyObj <- normalizePubkey pubkey ;;
     let pubBytes := pubkeyObj in
     isValid <- from_lib (nacl_sign_detached_verify messageBytes
                            signatureBytes pubBytes) ;;
     if negb isValid then
       throw (invalidSignature "Signature verification failed")
     else Ok tt)
    (fun error =>
       if is_verification_failure error then throw error
       else throw (invalidSignature "Invalid signature format")).

End Signers.

End SolanaAdapter.

(** ** Solana adapter, second revision *)

(** The tree holds a second revision of [SolanaAdapter.ts] (its file name
    is not recorded).  Its signature predicates, [parseMeta] on a string
    and [verifyTransactionMatchesCode] are those of the first; it differs
    in [deserializeTransaction], in [getMemoInstructions] and in the
    signatures [attachProtocolMeta] gives the new transaction.  Only the
    string input of [getProtocolMeta] is modelled. *)
Module SolanaAdapterR2.

Section Transactions.
Context {web3 : Web3} {codec : ProtocolMetaCodec}.

#[local] Open Scope result_scope.

(** [deserializeTransaction]: a versioned transaction is returned with
    any message version. *)
Definition deserializeTransaction (txString : jsstring)
  : result SolanaTransaction :=
  try_catch
    (versionedTx <- from_lib (VersionedTransaction_deserialize txString) ;;
     Ok (Versioned versionedTx))
    (fun _ =>
       try_catch (SolanaAdapter.legacy_from txString)
         (fun _ => throw (invalidTransactionFormat
                            "Invalid base64 transaction format"))).

(** The memo instruction rebuilt from a compiled one.  The account keys
    come from [getAccountKeys()] or, when that throws, from the static
    keys; either way an index without a static key is dropped. *)
Definition memo_of_compiled (msg : Message)
    (ix : MessageCompiledInstruction) : option TransactionInstruction :=
  match staticAccountKeys msg !! programIdIndex ix with
  | Some pid =>
      if PublicKey_equals pid MEMO_PROGRAM_ID then
        Some {| ix_keys :=
                  omap (fun i =>
                          match staticAccountKeys msg !! i with
                          | Some key =>
                              Some {| am_pubkey := Some key;
                                      am_isSigner := false;
                                      am_isWritable := false |}
                          | None => None
                          end)
                    (accountKeyIndexes ix);
                ix_programId := pid;
                ix_data := cix_data ix |}
      else None
  | None => None
  end.

(** [getMemoInstructions] *)
Definition getMemoInstructions (tx : SolanaTransaction)
  : list TransactionInstruction :=
  match tx with
  | Legacy tx =>
      List.filter (fun ix => PublicKey_equals (ix_programId ix)
                               MEMO_PROGRAM_ID)
        (tx_instructions tx)
  | Versioned vtx =>
      let msg := message_of (vtx_message vtx) in
      omap (memo_of_compiled msg) (compiledInstructions msg)
  end.

(** [getProtocolMeta] on a base64 string. *)
Definition getProtocolMeta (txString : jsstring) : option jsstring :=
  match deserializeTransaction txString with
  | inr tx => SolanaAdapter.first_protocol_meta (getMemoInstructions tx)
  | inl _ => None
  end.

(** [Array.from({ length: numSignatures }, () => new Uint8Array(64))] *)
Definition fresh_signatures (newMessage : Message) : list bytes :=
  repeat zero_signature (numRequiredSignatures (header newMessage)).

(** [attachProtocolMeta]: the new transaction always gets fresh, empty
    signatures. *)
Definition attachProtocolMeta_built :=
  SolanaAdapter.attachProtocolMeta_with getProtocolMeta
    (fun _ newMessage => fresh_signatures newMessage).

Definition attachProtocolMeta (txString : jsstring)
    (meta : ProtocolMetaFields) (connection : option Connection)
  : result jsstring :=
  built <- attachProtocolMeta_built txString meta connection ;;
  Ok (snd built).

End Transactions.

End SolanaAdapterR2.


(** ** Chain adapter contract ([src/adapters/BaseChainAdapter.ts]) *)

(** [ChainAdapter]: the four predicates.  A method is run at a clock
    reading, its first argument. *)
Record ChainAdapter := {
  verifyWithWallet : Z -> Untyped.ActionCode -> result bool;
  verifyWithDelegation : Z -> Untyped.ActionCode -> result bool;
  verifyRevokeWithWallet :
    Z -> Untyped.ActionCode -> option jsstring -> result bool;
  verifyRevokeWithDelegation :
    Z -> Untyped.ActionCode -> option jsstring -> result bool;
}.

(** [SignFn]: the awaited result of the signing capability; a rejection
    is a [throw]. *)
Definition SignFn : Type := bytes -> jsstring -> result jsstring.

(** [new SolanaAdapter()] *)
Definition solanaAdapter {libs : Libraries} {crypto : CryptoUtils}
  : ChainAdapter :=
  {| verifyWithWallet := fun _ a => outcome (SolanaAdapter.verifyWithWallet a);
     verifyWithDelegation := fun now a =>
       outcome (SolanaAdapter.verifyWithDelegation now a);
     verifyRevokeWithWallet := fun _ a rs =>
       outcome (SolanaAdapter.verifyRevokeWithWallet a rs);
     verifyRevokeWithDelegation := fun now a rs =>
       outcome (SolanaAdapter.verifyRevokeWithDelegation now a rs) |}.

(** ** Protocol facade ([src/ActionCodesProtocol.ts]) *)

Module ActionCodesProtocol.

(** Modelled from the spec: [SUPPORTED_CHAINS] of [src/constants.ts], which
    is not part of the tree: the closed set of chains known to the facade,
    initially solana alone.  The facade reads it by key. *)
Definition SUPPORTED_CHAINS : gset jsstring := {[ js "solana" ]}.

Definition supported (chain : jsstring) : bool :=
  bool_decide (chain ∈ SUPPORTED_CHAINS).

(** An instance: the adapter registry and the configuration, which
    determines the two strategies. *)
Record t := {
  adapters : gmap jsstring ChainAdapter;
  config : CodeGenerationConfig;
}.

(** The argument of [generate] with its strategy tag. *)
Inductive GenerateRequest :=
  | GenerateWallet (pubkey : jsstring)
  | GenerateDelegation (delegationProof : DelegationProof.t).

Inductive Generated :=
  | GeneratedCode (actionCode : ActionCode.t)
  | GeneratedDelegatedCode (actionCode : DelegatedActionCode.t).



Section Facade.
Context {libs : Libraries} {crypto : CryptoUtils}.

#[local] Open Scope result_scope.

(** The constructor. *)
Definition new (config : CodeGenerationConfig) : t :=
  {| adapters := {[ js "solana" := solanaAdapter ]};
     config := config |}.


(** [getAdapter] *)
Definition getAdapter (chain : jsstring) (this : t) : option ChainAdapter :=
  adapters this !! chain.

(** [generate].  [now] is the clock reading of
    [getCanonicalMessageParts], [now'] the later one of the proof
    validation. *)
Definition generate (this : t) (now now' : Z) (request : GenerateRequest)
    (chain : jsstring) (signFn : option SignFn) : result Generated :=
  if str_falsy chain || negb (supported chain) then
    throw (invalidAdapter chain)
  else
  match signFn with
  | None => throw (invalidSignature "Missing signature function")
  | Some signFn =>
      match request with
      | GenerateWallet pubkey =>
          canonical <- getCanonicalMessageParts now pubkey ;;
          signature <- signFn canonical chain ;;
          if str_falsy signature then
            throw (invalidSignature
                     "Missing signature over canonical message")
          else
          actionCode <- WalletStrategy.generateCode (config this) canonical
                          chain signature ;;
          Ok (GeneratedCode actionCode)
      | GenerateDelegation proof =>
          canonical <- getCanonicalMessageParts now
                         (DelegationProof.delegatedPubkey proof) ;;
          signature <- signFn canonical chain ;;
          if str_falsy signature then
            throw (invalidSignature "Missing delegated signature")
          else
          actionCode <- DelegationStrategy.generateDelegatedCode
                          (config this) now' proof canonical chain
                          signature ;;
          Ok (GeneratedDelegatedCode actionCode)
      end
  end.


End Facade.

(** The argument of [validate] with its strategy tag. *)
Inductive ValidateRequest :=
  | ValidateWallet (actionCode : ActionCode.t)
  | ValidateDelegation (actionCode : DelegatedActionCode.t).

Section Validation.
Context {libs : Libraries} {crypto : CryptoUtils}.

#[local] Open Scope result_scope.

(** [WalletStrategy.validateCode], whose file is not part of the tree:
    the validation of a wallet code under a configuration and at a clock
    reading. *)
Variable validateCode : CodeGenerationConfig -> Z -> ActionCode.t
                        -> result unit.

(** [validate].  [currentTime] is the clock reading of the strategy, [now]
    the one of the proof validation, [now'] the one of the adapter. *)
Definition validate (this : t) (currentTime now now' : Z)
    (request : ValidateRequest) : result unit :=
  match request with
  | ValidateWallet actionCode =>
      validateCode (config this) currentTime actionCode ;;;
      match getAdapter (ActionCode.chain actionCode) this with
      | None => throw (invalidAdapter (ActionCode.chain actionCode))
      | Some adapter =>
          ok <- verifyWithWallet adapter now'
                  (Untyped.of_action_code actionCode) ;;
          if negb ok then
            throw (invalidSignature "Wallet signature verification failed")
          else Ok tt
      end
  | ValidateDelegation delegatedActionCode =>
      let actionCode := DelegatedActionCode.base delegatedActionCode in
      DelegationStrategy.validateDelegatedCode (config this) currentTime now
        delegatedActionCode ;;;
      match getAdapter (ActionCode.chain actionCode) this with
      | None => throw (invalidAdapter (ActionCode.chain actionCode))
      | Some adapter =>
          ok <- verifyWithDelegation adapter now'
                  (Untyped.of_delegated delegatedActionCode) ;;
          if negb ok then
            throw (invalidSignature
                     "Delegation signature verification failed")
          else Ok tt
      end
  end.

End Validation.

End ActionCodesProtocol.

(** ** Concrete libraries for the examples *)

(** Base58 decoding as [bs58] does it, the 32-byte check of
    [new PublicKey], and a stand-in for Ed25519 (a signature is accepted
    when its first half is the public key), so that the functions above
    can be run on concrete inputs. *)
Module Toy.

Definition base58_alphabet : jsstring :=
  js "123456789ABCDEFGHJKLMNPQRSTUVWXYZabcdefghijkmnopqrstuvwxyz".

Fixpoint index_of (c : code_unit) (l : jsstring) : option N :=
  match l with
  | [] => None
  | x :: rest =>
      if x =? c then Some 0 else option_map N.succ (index_of c rest)
  end.

Fixpoint base58_value (acc : N) (s : jsstring) : option N :=
  match s with
  | [] => Some acc
  | c :: rest =>
      match index_of c base58_alphabet with
      | Some d => base58_value (acc * 58 + d) rest
      | None => None
      end
  end.

Fixpoint leading_ones (s : jsstring) : nat :=
  match s with
  | 49 :: rest => S (leading_ones rest)
  | _ => O
  end.

Fixpoint big_endian_bytes (fuel : nat) (n : N) (acc : bytes) : bytes :=
  match fuel with
  | O => acc
  | S f =>
      if n =? 0 then acc
      else big_endian_bytes f (n / 256) (n mod 256 :: acc)
  end.

Definition base58_decode (s : jsstring) : option bytes :=
  match base58_value 0 s with
  | Some v =>
      Some (repeat 0 (leading_ones s)
              ++ big_endian_bytes (N.to_nat (N.size v)) v [])
  | None => None
  end.

Definition publicKey (s : jsstring) : option PublicKey :=
  match base58_decode s with
  | Some b => if (length b =? 32)%nat then Some b else None
  | None => None
  end.

Definition verify (message signature publicKey : bytes) : option bool :=
  if (length signature =? 64)%nat && (length publicKey =? 32)%nat
  then Some (bool_decide (firstn 32 signature = publicKey))
  else None.

#[export] Instance libraries : Libraries := {|
  bs58_decode := base58_decode;
  PublicKey_new := publicKey;
  nacl_sign_detached_verify := verify;
|}.

(** The same decoders with a verification that accepts every
    signature of the right size. *)
Definition credulous : Libraries := {|
  bs58_decode := base58_decode;
  PublicKey_new := publicKey;
  nacl_sign_detached_verify := fun _ signature publicKey =>
    if (length signature =? 64)%nat && (length publicKey =? 32)%nat
    then Some true else None;
|}.

#[export] Instance crypto : CryptoUtils := {|
  codeHash := fun code => js "H" ++ code;
  hmac_sha256 := fun key message => key ++ message;
  signature_bytes := fun s =>
    match s with [] => None | _ => Some s end;
|}.

Definition wallet : jsstring :=
  js "9WzDXwBbmkg8ZTbNMqUxvQRAyrZzDsGYdLVL9zYtAWWM".
Definition delegate : jsstring :=
  js "2wyVnSw6j9omfqRixz37S2sU72rFTheQeUjDfXhAQJvf".
(** A signature the stand-in accepts for [wallet]. *)
Definition wallet_signature : jsstring :=
  js "3XkBxicgNEdsENff91VmcVWegA7JZqZrKMDdQ4TKrRjuoEmuLMrRVtaWZnQuBnWhWJJPkHFhPAuVkrmvM2NhKaHk".
(** A signature the stand-in accepts for [delegate]. *)
Definition delegate_signature : jsstring :=
  js "aZVtBFaxkKnFxtMRcAwzjqnVX9ejHJrz9Npo9z1kvYYmz8K8zoW1NAzjbE1Zh3AZ3cmw3MMgxZ6Pj4W5dmLPKLi".
(** A 64-byte signature the stand-in rejects for both keys. *)
Definition other_signature : jsstring :=
  js "1GMkH3brNXiNNs1tiFZHu4yZSRrzJwxi5wB9bHFtMinfCXNnR1adh8Vo8NTheK4evneedH4qmvjeqcBBNAefgS".

Definition solana : jsstring := js "solana".

Definition config : CodeGenerationConfig :=
  {| codeLength := 8; ttlMs := 120000; clockSkewMs := None |}.

Definition window : Z := 1759737720000.

(** A delegation proof expiring one hour after [window]. *)
Definition proof : DelegationProof.t :=
  {| DelegationProof.walletPubkey := wallet;
     DelegationProof.delegatedPubkey := delegate;
     DelegationProof.expiresAt := window + 3600000;
     DelegationProof.chain := solana;
     DelegationProof.signature := wallet_signature |}.

(** A delegated code for [proof], expiring with the configured ttl. *)
Definition delegated_code : DelegatedActionCode.t :=
  {| DelegatedActionCode.base :=
       {| ActionCode.chain := solana;
          ActionCode.code := js "12345678";
          ActionCode.pubkey := delegate;
          ActionCode.timestamp := window;
          ActionCode.expiresAt := window + 120000;
          ActionCode.signature := delegate_signature |};
     DelegatedActionCode.delegationProof := proof |}.

(** The same code under a proof that expires one minute after
    [window], before the code does. *)
Definition outliving_code : DelegatedActionCode.t :=
  {| DelegatedActionCode.base := DelegatedActionCode.base delegated_code;
     DelegatedActionCode.delegationProof :=
       {| DelegationProof.walletPubkey := wallet;
          DelegationProof.delegatedPubkey := delegate;
          DelegationProof.expiresAt := window + 60000;
          DelegationProof.chain := solana;
          DelegationProof.signature := wallet_signature |} |}.

(** A wallet code with a signature the stand-in accepts. *)
Definition wallet_code : ActionCode.t :=
  {| ActionCode.chain := solana;
     ActionCode.code := js "12345678";
     ActionCode.pubkey := wallet;
     ActionCode.timestamp := window;
     ActionCode.expiresAt := window + 120000;
     ActionCode.signature := wallet_signature |}.

(** The same code with a 64-byte signature the stand-in rejects. *)
Definition forged_wallet_code : ActionCode.t :=
  {| ActionCode.chain := solana;
     ActionCode.code := js "12345678";
     ActionCode.pubkey := wallet;
     ActionCode.timestamp := window;
     ActionCode.expiresAt := window + 120000;
     ActionCode.signature := other_signature |}.

(** The same code on another chain. *)
Definition ethereum_code : ActionCode.t :=
  {| ActionCode.chain := js "ethereum";
     ActionCode.code := js "12345678";
     ActionCode.pubkey := wallet;
     ActionCode.timestamp := window;
     ActionCode.expiresAt := window + 120000;
     ActionCode.signature := wallet_signature |}.

(** A delegated code as it arrives without its [delegationProof]. *)
Definition code_without_proof : Untyped.ActionCode :=
  {| Untyped.ac_chain := Some solana;
     Untyped.code := js "12345678";
     Untyped.pubkey := Some delegate;
     Untyped.timestamp := Some window;
     Untyped.ac_expiresAt := Some (window + 120000)%Z;
     Untyped.ac_signature := Some delegate_signature;
     Untyped.delegationProof := None |}.

(** *** Transactions *)

Definition memo_program : PublicKey := repeat 5 32.

Definition wallet_key : PublicKey := nullish (base58_decode wallet) [].

(** A versioned transaction with one required signer, no instruction, and
    a signature of 64 one-bytes. *)
Definition signed_message : Message :=
  {| header := {| numRequiredSignatures := 1;
                  numReadonlySignedAccounts := 0;
                  numReadonlyUnsignedAccounts := 0 |};
     staticAccountKeys := [wallet_key];
     recentBlockhash := js "11111111111111111111111111111111";
     compiledInstructions := [];
     addressTableLookups := [] |}.

Definition signed_transaction : VersionedTransaction :=
  {| vtx_message := MessageV0 signed_message;
     vtx_signatures := [repeat 1 64] |}.

(** The meta string of the stand-in codec. *)
Definition meta_string (m : ProtocolMetaFields) : jsstring :=
  js "actioncodes:ver=2&id=" ++ id m ++ js "&int=" ++ int m.

Fixpoint split_at_ampersand (s : jsstring) : option (jsstring * jsstring) :=
  match s with
  | [] => None
  | c :: rest =>
      if c =? 38 then Some ([], rest)
      else match split_at_ampersand rest with
           | Some (before, after) => Some (c :: before, after)
           | None => None
           end
  end.

Definition parse_meta_string (s : jsstring)
  : result (option ProtocolMetaFields) :=
  match WalletStrategy.strip_prefix (js "actioncodes:ver=2&id=") s with
  | None => Ok None
  | Some r =>
      match split_at_ampersand r with
      | None => throw (ProtocolError MISSING_REQUIRED_FIELD [js "int"])
      | Some (i, r') =>
          match WalletStrategy.strip_prefix (js "int=") r' with
          | None => throw (ProtocolError INVALID_META_FORMAT [])
          | Some owner =>
              Ok (Some {| ver := 2; id := i; int := owner;
                          iss := None; p := None |})
          end
      end
  end.

#[export] Instance codec : ProtocolMetaCodec := {|
  buildProtocolMeta := fun m => Ok (meta_string m);
  parseProtocolMeta := parse_meta_string;
|}.

(** The meta binding [wallet_code] to [wallet]. *)
Definition wallet_meta : ProtocolMetaFields :=
  {| ver := 2; id := js "H12345678"; int := wallet;
     iss := None; p := None |}.

(** A legacy transaction carrying [wallet_meta] in a memo. *)
Definition memo_transaction : Transaction :=
  {| tx_instructions :=
       [ {| ix_keys := [];
            ix_programId := memo_program;
            ix_data := TextEncoder_encode (meta_string wallet_meta) |} ];
     tx_signatures := [];
     tx_recentBlockhash := None;
     tx_feePayer := None |}.

(** A wire format for the examples: the string names the transaction. *)
#[export] Instance web3 : Web3 := {|
  MEMO_PROGRAM_ID := memo_program;
  VersionedTransaction_deserialize := fun s =>
    if str_eqb s (js "signed-transaction") then Some signed_transaction
    else None;
  VersionedTransaction_serialize := fun _ => Some (js "versioned");
  Transaction_from := fun s =>
    if str_eqb s (js "memo-transaction") then Some memo_transaction
    else None;
  Transaction_serialize := fun _ => Some (js "legacy");
  TransactionMessage_decompile := fun _ _ => None;
  compileToV0Message := fun _ _ => None;
|}.

(** *** Facade *)


(** A signing capability that signs with [delegate]. *)
Definition sign_as_delegate : SignFn := fun _ _ => Ok delegate_signature.


(** *** Signers and attached metas *)

(** A test for the [catch] clause of [verifyMessageSignedByIntentOwner]:
    the signature errors of the protocol itself. *)
Definition is_verification_failure (e : exn) : bool :=
  match e with
  | ProtocolError INVALID_SIGNATURE _ => true
  | _ => false
  end.

(** [memo_transaction] signed by [wallet]. *)
Definition signed_memo_transaction : Transaction :=
  {| tx_instructions := tx_instructions memo_transaction;
     tx_signatures := [(wallet_key, Some (repeat 1 64))];
     tx_recentBlockhash := None;
     tx_feePayer := Some wallet_key |}.

(** The message that attaching [wallet_meta] to [signed_message] gives. *)
Definition attached_message : Message :=
  {| header := header signed_message;
     staticAccountKeys := [wallet_key; memo_program];
     recentBlockhash := recentBlockhash signed_message;
     compiledInstructions :=
       [ {| programIdIndex := 1;
            accountKeyIndexes := [];
            cix_data := TextEncoder_encode (meta_string wallet_meta) |} ];
     addressTableLookups := [] |}.

(** That message with the signature of the input, and with an empty
    one. *)
Definition attached_transaction : VersionedTransaction :=
  {| vtx_message := MessageV0 attached_message;
     vtx_signatures := [repeat 1 64] |}.

Definition unsigned_attached_transaction : VersionedTransaction :=
  {| vtx_message := MessageV0 attached_message;
     vtx_signatures := [zero_signature] |}.

(** A wire format that reads back what it wrote. *)
Definition web3_readback : Web3 := {|
  MEMO_PROGRAM_ID := memo_program;
  VersionedTransaction_deserialize := fun s =>
    if str_eqb s (js "signed-transaction") then Some signed_transaction
    else if str_eqb s (js "attached") then Some attached_transaction
    else if str_eqb s (js "unsigned-attached")
    then Some unsigned_attached_transaction
    else None;
  VersionedTransaction_serialize := fun _ => Some (js "attached");
  Transaction_from := fun s =>
    if str_eqb s (js "memo-transaction") then Some memo_transaction
    else if str_eqb s (js "signed-memo-transaction")
    then Some signed_memo_transaction
    else None;
  Transaction_serialize := fun _ => Some (js "legacy");
  TransactionMessage_decompile := fun _ _ => None;
  compileToV0Message := fun _ _ => None;
|}.

End Toy.

(** * Properties *)

(** ** Proof steps *)

Ltac unfold_result :=
  unfold rbind, try_catch, from_lib, throw, Ok, succeeds, throws_code in *.

Ltac break_if :=
  match goal with
  | |- context [if ?c then _ else _] => destruct c eqn:?
  end.

(** ** Strings *)

Lemma str_eqb_eq (a b : jsstring) : str_eqb a b = true <-> a = b.
Proof. unfold str_eqb. apply bool_decide_eq_true. Qed.

Lemma str_eqb_neq (a b : jsstring) : str_eqb a b = false <-> a <> b.
Proof. unfold str_eqb. apply bool_decide_eq_false. Qed.

Lemma str_eqb_refl (a : jsstring) : str_eqb a a = true.
Proof. now apply str_eqb_eq. Qed.

(** ** Properties of the canonical serializers *)

Section CanonicalFacts.

Lemma unsafe_code_unit_false (c : code_unit) :
  unsafe_code_unit c = false ->
  c <> dquote /\ c <> backslash /\ 0x1F < c.
Proof.
  unfold unsafe_code_unit. intros H.
  repeat (apply orb_false_iff in H; destruct H as [H ?]).
  apply N.eqb_neq in H. apply N.leb_gt in H1.
  match goal with h : (c =? backslash) = false |- _ =>
    apply N.eqb_neq in h end.
  auto.
Qed.

Lemma quote_code_unit_safe (c : code_unit) :
  unsafe_code_unit c = false -> quote_code_unit c = [c].
Proof.
  intros H. apply unsafe_code_unit_false in H as (Hq & Hb & Hc).
  unfold quote_code_unit.
  repeat match goal with
  | |- context [?a =? ?b] =>
      destruct (N.eqb_spec a b) as [->|_];
      [ first [ contradiction | exfalso; vm_compute in Hc; discriminate ] | ]
  end.
  destruct (N.ltb_spec c 0x20); [lia | reflexivity].
Qed.

(** On a string without unsafe code units, JSON quoting escapes nothing
    but unpaired surrogates. *)
Lemma QuoteJSONString_chars_safe (s : jsstring) :
  has_unsafe_char s = false ->
  QuoteJSONString_chars s = escape_unpaired s.
Proof.
  remember (length s) as n eqn:Hn.
  revert s Hn. induction n as [n IH] using lt_wf_ind.
  intros [|c rest] Hn Hsafe; [reflexivity|].
  unfold has_unsafe_char in *.
  cbn [existsb] in Hsafe. cbn [QuoteJSONString_chars escape_unpaired].
  apply orb_false_iff in Hsafe as [Hc Hrest].
  destruct (is_high_surrogate c) eqn:Hhi.
  - destruct rest as [|d rest']; [reflexivity|].
    destruct (is_low_surrogate d).
    + cbn [existsb] in Hrest.
      apply orb_false_iff in Hrest as [Hd Hrest'].
      do 2 f_equal. apply (IH (length rest')); auto.
      subst n. simpl. lia.
    + f_equal. apply (IH (length (d :: rest'))); auto.
      subst n. simpl. lia.
  - destruct (is_low_surrogate c).
    + f_equal. apply (IH (length rest)); auto. subst n. simpl. lia.
    + rewrite quote_code_unit_safe by assumption. simpl. f_equal.
      apply (IH (length rest)); auto. subst n. simpl. lia.
Qed.

Lemma escape_unpaired_wellFormed (s : jsstring) :
  isWellFormed s = true -> escape_unpaired s = s.
Proof.
  remember (length s) as n eqn:Hn.
  revert s Hn. induction n as [n IH] using lt_wf_ind.
  intros [|c rest] Hn Hwf; [reflexivity|].
  simpl in Hwf |- *.
  destruct (is_high_surrogate c).
  - destruct rest as [|d rest']; [discriminate|].
    apply andb_true_iff in Hwf as [Hlo Hwf]. rewrite Hlo.
    do 2 f_equal. apply (IH (length rest')); auto. subst n. simpl. lia.
  - apply andb_true_iff in Hwf as [Hlo Hwf].
    apply negb_true_iff in Hlo. rewrite Hlo. f_equal.
    apply (IH (length rest)); auto. subst n. simpl. lia.
Qed.

Lemma QuoteJSONString_safe (s : jsstring) :
  has_unsafe_char s = false ->
  QuoteJSONString s = quoted (escape_unpaired s).
Proof.
  intros Hsafe. unfold QuoteJSONString, quoted.
  now rewrite QuoteJSONString_chars_safe.
Qed.

Lemma JSON_stringify_generation (P : jsstring) (T : Z) :
  has_unsafe_char P = false ->
  JSON_stringify
    [ (js "id", JString CANONICAL_MESSAGE_PREFIX);
      (js "ver", JNumber CANONICAL_MESSAGE_VERSION);
      (js "pubkey", JString P);
      (js "windowStart", JNumber T) ]
  = generation_message_text (escape_unpaired P) T.
Proof.
  intros Hsafe.
  unfold JSON_stringify, SerializeJSONMembers, SerializeJSONProperty,
    generation_message_text.
  rewrite (QuoteJSONString_safe P) by assumption.
  change (QuoteJSONString (js "id")) with (quoted (js "id")).
  change (QuoteJSONString CANONICAL_MESSAGE_PREFIX)
    with (quoted (js "actioncodes")).
  change (QuoteJSONString (js "ver")) with (quoted (js "ver")).
  change (QuoteJSONString (js "pubkey")) with (quoted (js "pubkey")).
  change (QuoteJSONString (js "windowStart"))
    with (quoted (js "windowStart")).
  change (Number_toString CANONICAL_MESSAGE_VERSION) with (js "1").
  change (js ":1,") with (js ":" ++ js "1" ++ js ",").
  rewrite <- !app_assoc. reflexivity.
Qed.

Lemma has_unsafe_char_spec (s : jsstring) :
  has_unsafe_char s = true <->
  exists c, In c s /\
    (c = dquote \/ c = backslash \/ c <= 0x1F \/ (0x7F <= c /\ c <= 0x9F)).
Proof.
  unfold has_unsafe_char. rewrite existsb_exists.
  split; intros (c & Hin & Hc); exists c; split; auto.
  - unfold unsafe_code_unit in Hc.
    repeat (apply orb_true_iff in Hc; destruct Hc as [Hc|Hc]).
    + left. now apply N.eqb_eq.
    + right; left. now apply N.eqb_eq.
    + right; right; left. now apply N.leb_le.
    + right; right; right. apply andb_true_iff in Hc as [H1 H2].
      split; now apply N.leb_le.
  - unfold unsafe_code_unit.
    destruct Hc as [->| [->| [H| [H1 H2]]]]; [reflexivity|reflexivity| |].
    + apply N.leb_le in H. rewrite H. now rewrite !orb_true_r.
    + apply N.leb_le in H1, H2. rewrite H1, H2. now rewrite !orb_true_r.
Qed.

End CanonicalFacts.

(** ** ASCII strings under the encoder, the decoder and the parser *)

Lemma all_ascii_cons (c : code_unit) (s : jsstring) :
  all_ascii (c :: s) = true -> c < 0x80 /\ all_ascii s = true.
Proof.
  unfold all_ascii. simpl. intros H.
  apply andb_true_iff in H as [Hc Hs]. apply N.ltb_lt in Hc. auto.
Qed.

Lemma ascii_not_surrogate (c : code_unit) :
  c < 0x80 -> is_high_surrogate c = false /\ is_low_surrogate c = false.
Proof.
  intros Hc. unfold is_high_surrogate, is_low_surrogate.
  destruct (N.leb_spec 0xD800 c); [lia|].
  destruct (N.leb_spec 0xDC00 c); [lia|]. auto.
Qed.

Lemma all_ascii_isWellFormed (s : jsstring) :
  all_ascii s = true -> isWellFormed s = true.
Proof.
  induction s as [|c s IH]; [reflexivity|].
  intros H. apply all_ascii_cons in H as [Hc Hs].
  destruct (ascii_not_surrogate c Hc) as [Hhi Hlo].
  simpl. rewrite Hhi, Hlo. simpl. auto.
Qed.

(** The encoder copies an ASCII prefix. *)
Lemma TextEncoder_encode_ascii_app (a b : jsstring) :
  all_ascii a = true ->
  TextEncoder_encode (a ++ b) = a ++ TextEncoder_encode b.
Proof.
  induction a as [|c a IH]; [reflexivity|].
  intros H. apply all_ascii_cons in H as [Hc Ha].
  destruct (ascii_not_surrogate c Hc) as [Hhi Hlo].
  simpl. rewrite Hhi, Hlo. unfold utf8_code_point.
  destruct (N.ltb_spec c 0x80); [|lia].
  simpl. now rewrite IH.
Qed.

(** The decoder copies ASCII bytes. *)
Lemma TextDecoder_decode_ascii (s : bytes) :
  all_ascii s = true -> TextDecoder_decode s = s.
Proof.
  unfold TextDecoder_decode.
  induction s as [|c s IH]; [reflexivity|].
  intros H. apply all_ascii_cons in H as [Hc Hs].
  simpl. destruct (N.ltb_spec c 0x80); [|lia].
  simpl. unfold utf16_of_code_point at 1.
  destruct (N.ltb_spec c 0x10000); [|lia].
  simpl. now rewrite IH.
Qed.

Lemma strip_prefix_app (p s : bytes) :
  WalletStrategy.strip_prefix p (p ++ s) = Some s.
Proof.
  induction p as [|x p IH]; [reflexivity|].
  simpl. now rewrite N.eqb_refl.
Qed.

Lemma split_at_quote_app (s rest : bytes) :
  has_unsafe_char s = false ->
  WalletStrategy.split_at_quote (s ++ dquote :: rest) = Some (s, rest).
Proof.
  induction s as [|c s IH]; [reflexivity|].
  simpl. intros H. apply orb_false_iff in H as [Hc Hs].
  apply unsafe_code_unit_false in Hc as (Hq & _ & _).
  destruct (N.eqb_spec c dquote); [contradiction|].
  now rewrite IH.
Qed.

(** The parser finds the pubkey of a generation message again. *)
Lemma parseCanonicalMessage_pubkey (P P' : jsstring) (T T' : Z) :
  all_ascii P = true -> has_unsafe_char P = false ->
  WalletStrategy.parseCanonicalMessage (generation_message P T)
  = Ok (P', T') ->
  P' = P.
Proof.
  intros Hascii Hsafe. unfold WalletStrategy.parseCanonicalMessage.
  assert (Hmsg : exists tail,
    generation_message P T
    = WalletStrategy.message_head ++ P ++ dquote :: tail).
  { exists (TextEncoder_encode
              (js "," ++ quoted (js "windowStart") ++ js ":"
                 ++ Number_toString T ++ js "}")).
    unfold generation_message.
    replace (generation_message_text P T)
      with ((js "{" ++ quoted (js "id") ++ js ":"
               ++ quoted (js "actioncodes") ++ js ","
               ++ quoted (js "ver") ++ js ":1,"
               ++ quoted (js "pubkey") ++ js ":" ++ [dquote])
              ++ P ++ [dquote]
              ++ (js "," ++ quoted (js "windowStart") ++ js ":"
                    ++ Number_toString T ++ js "}")).
    2:{ unfold generation_message_text, quoted.
        repeat rewrite <- app_assoc. reflexivity. }
    rewrite TextEncoder_encode_ascii_app by reflexivity.
    rewrite TextEncoder_encode_ascii_app by assumption.
    reflexivity. }
  destruct Hmsg as [tail ->].
  rewrite strip_prefix_app, split_at_quote_app by assumption.
  destruct (WalletStrategy.strip_prefix _ tail); [|discriminate].
  destruct (WalletStrategy.parse_integer _); [|discriminate].
  intros [= <- _]. now apply TextDecoder_decode_ascii.
Qed.



(** What [serializeCanonical] returns when it returns. *)
Lemma serializeCanonical_Ok (P : jsstring) (T : Z) (message : bytes) :
  serializeCanonical {| cmp_pubkey := P; cmp_windowStart := T |}
  = Ok message ->
  has_unsafe_char P = false
  /\ (isWellFormed P = true -> message = generation_message P T).
Proof.
  unfold serializeCanonical; cbn [cmp_pubkey cmp_windowStart].
  repeat (break_if; try discriminate).
  intros [= <-]. split; [reflexivity|].
  intros Hwf. unfold generation_message.
  rewrite <- (escape_unpaired_wellFormed P) at 2 by assumption.
  rewrite <- (JSON_stringify_generation P T) by assumption.
  reflexivity.
Qed.

(** ** Delegation strategy *)

Section DelegationFacts.
Context {libs : Libraries} {crypto : CryptoUtils}.
Variable config : CodeGenerationConfig.

Import DelegationStrategy.

(** An accepted proof is positive, not expired and at most one year
    ahead of the clock. *)
Lemma validateDelegationProof_Ok (now : Z) (p : DelegationProof.t) :
  validateDelegationProof now p = Ok tt ->
  (0 < DelegationProof.expiresAt p)%Z /\
  (now <= DelegationProof.expiresAt p)%Z /\
  (DelegationProof.expiresAt p <= now + maxFuture)%Z.
Proof.
  unfold validateDelegationProof. unfold_result.
  repeat (break_if; try discriminate);
    destruct (PublicKey_new _); try discriminate;
    repeat (break_if; try discriminate);
    destruct (PublicKey_new _); try discriminate;
    repeat (break_if; try discriminate).
  intros _. lia.
Qed.

(** Every rejection of a proof is typed INVALID_INPUT or EXPIRED_CODE,
    and EXPIRED_CODE is raised only for a proof whose expiration is
    behind the clock. *)
Lemma validateDelegationProof_error (now : Z) (p : DelegationProof.t)
    (e : exn) :
  validateDelegationProof now p = throw e ->
  (exists d, e = ProtocolError INVALID_INPUT d) \/
  ((exists d, e = ProtocolError EXPIRED_CODE d) /\
   (DelegationProof.expiresAt p < now)%Z).
Proof.
  unfold validateDelegationProof, invalidInput, expiredCode. unfold_result.
  repeat (break_if; try discriminate);
    try (intros [= <-]; eauto; fail);
    destruct (PublicKey_new _);
    try (intros [= <-]; eauto; fail);
    repeat (break_if; try discriminate);
    try (intros [= <-]; eauto; fail);
    destruct (PublicKey_new _);
    try (intros [= <-]; eauto; fail);
    repeat (break_if; try discriminate);
    try (intros [= <-]; eauto; fail).
  all: intros [= <-]; right; split; [eauto | lia].
Qed.

Lemma validateDelegationProof_total (now : Z) (p : DelegationProof.t) :
  validateDelegationProof now p = Ok tt \/
  exists e, validateDelegationProof now p = throw e.
Proof.
  destruct (validateDelegationProof now p) as [e|[]]; [right|left]; eauto.
Qed.

(** The checks of a proof that do not read the clock are the same at
    every time: a proof accepted at its own expiration time fails later
    on only by being expired. *)
Lemma validateDelegationProof_expired (now : Z) (p : DelegationProof.t) :
  validateDelegationProof (DelegationProof.expiresAt p) p = Ok tt ->
  (DelegationProof.expiresAt p < now)%Z ->
  validateDelegationProof now p
  = throw (expiredCode (js "Delegation proof has expired")).
Proof.
  unfold validateDelegationProof. unfold_result.
  intros Hok Hlt. revert Hok.
  repeat (break_if; try discriminate);
    destruct (PublicKey_new _); try discriminate;
    repeat (break_if; try discriminate);
    destruct (PublicKey_new _); try discriminate;
    repeat (break_if; try discriminate);
    try reflexivity; intros _; unfold maxFuture in *; lia.
Qed.

(** A proof accepted at some time is still accepted at the very instant
    it expires. *)
Lemma validateDelegationProof_at_expiry (now : Z) (p : DelegationProof.t) :
  validateDelegationProof now p = Ok tt ->
  validateDelegationProof (DelegationProof.expiresAt p) p = Ok tt.
Proof.
  unfold validateDelegationProof. unfold_result.
  repeat (break_if; try discriminate);
    destruct (PublicKey_new _); try discriminate;
    repeat (break_if; try discriminate);
    destruct (PublicKey_new _); try discriminate;
    repeat (break_if; try discriminate);
    try reflexivity; intros _; unfold maxFuture in *; lia.
Qed.

Lemma validateDelegationProof_too_far (now : Z) (p : DelegationProof.t) :
  (DelegationProof.expiresAt p > now + maxFuture)%Z ->
  throws_code (validateDelegationProof now p) INVALID_INPUT.
Proof.
  intros Hfar.
  destruct (validateDelegationProof_total now p) as [Hok|[e He]].
  - apply validateDelegationProof_Ok in Hok. lia.
  - rewrite He.
    destruct (validateDelegationProof_error _ _ _ He)
      as [[d ->]|[_ Hlt]]; [now exists d|].
    unfold maxFuture in *. lia.
Qed.

End DelegationFacts.

Section DelegationClaims.
Context {libs : Libraries} {crypto : CryptoUtils}.
Variable config : CodeGenerationConfig.

Import DelegationStrategy.

Lemma generateDelegatedCode_proof_valid now p msg chain sig :
  succeeds (generateDelegatedCode config now p msg chain sig) ->
  validateDelegationProof now p = Ok tt.
Proof.
  unfold generateDelegatedCode. intros [a Ha].
  destruct (validateDelegationProof now p) as [e|[]]; [discriminate|].
  reflexivity.
Qed.

Lemma validateDelegatedCode_proof_valid currentTime now a :
  succeeds (validateDelegatedCode config currentTime now a) ->
  validateDelegationProof now (DelegatedActionCode.delegationProof a)
  = Ok tt.
Proof.
  unfold validateDelegatedCode. intros [[] Ha]. revert Ha.
  break_if; [discriminate|].
  destruct (validateDelegationProof now _) as [e|[]]; [discriminate|].
  reflexivity.
Qed.

(** C8 (as amended).  Wherever a delegation proof is used, acceptance
    requires [now <= expiresAt <= now + 365 days]; a proof that is
    otherwise valid is rejected with EXPIRED_CODE once the clock has
    passed its expiration, and a proof more than one year ahead is
    rejected with INVALID_INPUT. *)
Theorem delegation_proof_expiry_window
    (now currentTime : Z) (a : DelegatedActionCode.t)
    (msg : bytes) (chain sig : jsstring) :
  let p := DelegatedActionCode.delegationProof a in
  let expiresAt := DelegationProof.expiresAt p in
  (succeeds (generateDelegatedCode config now p msg chain sig) ->
   (now <= expiresAt <= now + maxFuture)%Z)
  /\
  (succeeds (validateDelegatedCode config currentTime now a) ->
   (now <= expiresAt <= now + maxFuture)%Z)
  /\
  (validateDelegationProof expiresAt p = Ok tt -> (expiresAt < now)%Z ->
   throws_code (generateDelegatedCode config now p msg chain sig)
     EXPIRED_CODE
   /\ throws_code (validateDelegatedCode config currentTime now a)
        EXPIRED_CODE)
  /\
  ((expiresAt > now + maxFuture)%Z ->
   throws_code (generateDelegatedCode config now p msg chain sig)
     INVALID_INPUT
   /\ ((currentTime <= ActionCode.expiresAt (DelegatedActionCode.base a)
                        + nullish (clockSkewMs config) 0)%Z ->
       throws_code (validateDelegatedCode config currentTime now a)
         INVALID_INPUT)).
Proof.
  intros p expiresAt. repeat split.
  - apply generateDelegatedCode_proof_valid, validateDelegationProof_Ok
      in H. tauto.
  - apply generateDelegatedCode_proof_valid, validateDelegationProof_Ok
      in H. tauto.
  - apply validateDelegatedCode_proof_valid, validateDelegationProof_Ok
      in H. tauto.
  - apply validateDelegatedCode_proof_valid, validateDelegationProof_Ok
      in H. tauto.
  - unfold generateDelegatedCode.
    rewrite (validateDelegationProof_expired now p) by assumption.
    unfold expiredCode. cbn. eexists; reflexivity.
  - unfold validateDelegatedCode. fold p.
    break_if; [unfold expiredCode; eexists; reflexivity|].
    rewrite (validateDelegationProof_expired now p) by assumption.
    unfold expiredCode. cbn. eexists; reflexivity.
  - unfold generateDelegatedCode.
    destruct (validateDelegationProof_too_far now p H) as [d ->].
    cbn. eexists; reflexivity.
  - intros Hct. unfold validateDelegatedCode. fold p.
    destruct (Z.gtb_spec currentTime
      (ActionCode.expiresAt (DelegatedActionCode.base a)
       + nullish (clockSkewMs config) 0)%Z); [lia|].
    destruct (validateDelegationProof_too_far now p H) as [d ->].
    cbn. eexists; reflexivity.
Qed.

(** C3 (as amended).  A delegated code that expires after its proof is
    always rejected, with INVALID_INPUT or with the EXPIRED_CODE of an
    earlier check; it is rejected by the outlives check itself, with
    INVALID_INPUT, whenever the earlier checks pass; and a code that
    expires no later than its proof never raises that error. *)
Theorem validateDelegatedCode_outlives
    (currentTime now : Z) (a : DelegatedActionCode.t) :
  let code := DelegatedActionCode.base a in
  let p := DelegatedActionCode.delegationProof a in
  ((ActionCode.expiresAt code > DelegationProof.expiresAt p)%Z ->
   (throws_code (validateDelegatedCode config currentTime now a)
      INVALID_INPUT
    \/ throws_code (validateDelegatedCode config currentTime now a)
         EXPIRED_CODE)
   /\
   ((currentTime <= ActionCode.expiresAt code
                      + nullish (clockSkewMs config) 0)%Z ->
    validateDelegationProof now p = Ok tt ->
    ActionCode.pubkey code = DelegationProof.delegatedPubkey p ->
    validateDelegatedCode config currentTime now a = throw outlives_error))
  /\
  ((ActionCode.expiresAt code <= DelegationProof.expiresAt p)%Z ->
   validateDelegatedCode config currentTime now a <> throw outlives_error).
Proof.
  intros code p. split; [intros Hgt; split|intros Hle].
  - unfold validateDelegatedCode. fold code p.
    break_if; [right; unfold expiredCode; eexists; reflexivity|].
    destruct (validateDelegationProof_total now p) as [->|[e He]].
    + cbn. break_if;
        [left; unfold invalidInput; eexists; reflexivity|].
      destruct (Z.gtb_spec (ActionCode.expiresAt code)
                  (DelegationProof.expiresAt p)); [|lia].
      left; unfold invalidInput; eexists; reflexivity.
    + rewrite He. cbn.
      destruct (validateDelegationProof_error _ _ _ He)
        as [[d ->]|[[d ->] _]]; [left|right]; eexists; reflexivity.
  - intros Hct Hp Hpk. unfold validateDelegatedCode. fold code p.
    destruct (Z.gtb_spec currentTime
      (ActionCode.expiresAt code + nullish (clockSkewMs config) 0)%Z);
      [lia|].
    rewrite Hp. cbn. rewrite Hpk, str_eqb_refl. cbn.
    destruct (Z.gtb_spec (ActionCode.expiresAt code)
                (DelegationProof.expiresAt p)); [reflexivity|lia].
  - unfold validateDelegatedCode. fold code p.
    break_if; [discriminate|].
    destruct (validateDelegationProof now p) as [e|[]] eqn:He.
    + cbn. intros [= ->].
      revert He. unfold validateDelegationProof. unfold_result.
      unfold outlives_error.
      repeat (break_if; try discriminate);
        destruct (PublicKey_new _); try discriminate;
        repeat (break_if; try discriminate);
        destruct (PublicKey_new _); try discriminate;
        repeat (break_if; try discriminate).
    + cbn. break_if; [discriminate|].
      destruct (Z.gtb_spec (ActionCode.expiresAt code)
                  (DelegationProof.expiresAt p)); [lia|].
      break_if; [discriminate|].
      unfold_result.
      destruct (serializeCanonical _) as [e|m] eqn:Hs.
      * intros [= ->]. revert Hs. unfold serializeCanonical.
        repeat (break_if; try discriminate).
      * destruct (bs58_decode _); [|discriminate].
        destruct (bs58_decode _); [|discriminate].
        destruct (nacl_sign_detached_verify _ _ _) as [[]|];
          discriminate.
Qed.

(** The outcome of [validateDelegatedCode] does not depend on the code
    string: no check of the function reads it. *)
Lemma validateDelegatedCode_ignores_code
    (currentTime now : Z) (a : DelegatedActionCode.t) (c : jsstring) :
  validateDelegatedCode config currentTime now
    (DelegatedActionCode.with_code a c) = Ok tt
  <-> validateDelegatedCode config currentTime now a = Ok tt.
Proof.
  unfold validateDelegatedCode, DelegatedActionCode.with_code. cbn.
  break_if; [split; discriminate|]. reflexivity.
Qed.

(** The code returned by [generateDelegatedCode] embeds the given proof
    and carries the pubkey of the canonical message. *)
Lemma generateDelegatedCode_from_message
    (now : Z) (p : DelegationProof.t) (msg : bytes)
    (chain sig : jsstring) (a : DelegatedActionCode.t) :
  generateDelegatedCode config now p msg chain sig = Ok a ->
  DelegatedActionCode.delegationProof a = p
  /\ exists T,
       WalletStrategy.parseCanonicalMessage msg
       = Ok (ActionCode.pubkey (DelegatedActionCode.base a), T).
Proof.
  unfold generateDelegatedCode, WalletStrategy.generateCode.
  destruct (validateDelegationProof now p) as [e|[]]; [discriminate|].
  cbn. destruct (WalletStrategy.parseCanonicalMessage msg)
    as [e|[P T]] eqn:Hparse; [discriminate|].
  cbn. destruct (signature_bytes sig); [|discriminate].
  cbn. intros [= <-]. cbn. eauto.
Qed.

(** An accepted proof names two keys that [new PublicKey] accepts. *)
Lemma validateDelegationProof_pubkeys (now : Z) (p : DelegationProof.t) :
  validateDelegationProof now p = Ok tt ->
  PublicKey_new (DelegationProof.walletPubkey p) <> None
  /\ PublicKey_new (DelegationProof.delegatedPubkey p) <> None.
Proof.
  unfold validateDelegationProof. unfold_result.
  break_if; [discriminate|].
  destruct (PublicKey_new (DelegationProof.walletPubkey p));
    [|discriminate].
  break_if; [discriminate|].
  destruct (PublicKey_new (DelegationProof.delegatedPubkey p));
    [|discriminate].
  intros _. split; discriminate.
Qed.

End DelegationClaims.

(** C4 (as amended).  The code returned by [generateDelegatedCode] embeds
    the given proof unchanged and carries the pubkey of the canonical
    message, which is the delegated pubkey of the proof whenever the
    message is the generation message of that key; this is the message
    [ActionCodesProtocol.generate] signs, so the delegated codes of the
    facade carry the delegated pubkey (base58 keys being ASCII). *)
Theorem generateDelegatedCode_pubkey
    {libs : Libraries} {crypto : CryptoUtils}
    (p : DelegationProof.t) (chain : jsstring)
    (a : DelegatedActionCode.t) :
  (forall config now msg sig,
     DelegationStrategy.generateDelegatedCode config now p msg chain sig
     = Ok a ->
     DelegatedActionCode.delegationProof a = p
     /\ (exists T,
           WalletStrategy.parseCanonicalMessage msg
           = Ok (ActionCode.pubkey (DelegatedActionCode.base a), T))
     /\ (forall T,
           WalletStrategy.parseCanonicalMessage msg
           = Ok (DelegationProof.delegatedPubkey p, T) ->
           ActionCode.pubkey (DelegatedActionCode.base a)
           = DelegationProof.delegatedPubkey p))
  /\
  ((forall s, PublicKey_new s <> None -> all_ascii s = true) ->
   forall this now now' signFn,
     ActionCodesProtocol.generate this now now'
       (ActionCodesProtocol.GenerateDelegation p) chain signFn
     = Ok (ActionCodesProtocol.GeneratedDelegatedCode a) ->
     DelegatedActionCode.delegationProof a = p
     /\ ActionCode.pubkey (DelegatedActionCode.base a)
        = DelegationProof.delegatedPubkey p).
Proof.
  split.
  - intros config now msg sig Hgen.
    destruct (generateDelegatedCode_from_message _ _ _ _ _ _ _ Hgen)
      as (Hp & T & Hparse).
    repeat split; eauto.
    intros T' Hparse'. rewrite Hparse in Hparse'.
    now injection Hparse'.
  - intros Hascii this now now' signFn.
    unfold ActionCodesProtocol.generate, getCanonicalMessageParts.
    break_if; [discriminate|].
    destruct signFn as [signFn|]; [|discriminate].
    destruct (serializeCanonical _) as [e|msg] eqn:Hser; [discriminate|].
    cbn. destruct (signFn msg chain) as [e|sig]; [discriminate|].
    cbn. break_if; [discriminate|].
    destruct (DelegationStrategy.generateDelegatedCode _ _ _ _ _ _)
      as [e|a'] eqn:Hgen; [discriminate|].
    cbn. intros [= ->].
    destruct (generateDelegatedCode_from_message _ _ _ _ _ _ _ Hgen)
      as (Hp & T & Hparse).
    split; [exact Hp|].
    assert (Hvalid : DelegationStrategy.validateDelegationProof now' p
                     = Ok tt).
    { eapply generateDelegatedCode_proof_valid. eexists; exact Hgen. }
    apply validateDelegationProof_pubkeys in Hvalid as [_ Hkey].
    apply Hascii in Hkey.
    apply serializeCanonical_Ok in Hser as [Hsafe Hmsg].
    rewrite Hmsg in Hparse by now apply all_ascii_isWellFormed.
    now apply parseCanonicalMessage_pubkey in Hparse.
Qed.

(** At the instant a proof expires it is still accepted: generation
    succeeds although [expiresAt > now] fails. *)
Lemma delegation_proof_accepted_at_expiry :
  let now := DelegationProof.expiresAt Toy.proof in
  succeeds
    (DelegationStrategy.generateDelegatedCode (libs := Toy.libraries)
       (crypto := Toy.crypto) Toy.config now Toy.proof
       (generation_message Toy.delegate Toy.window) Toy.solana
       Toy.delegate_signature)
  /\ ~ (DelegationProof.expiresAt Toy.proof > now)%Z.
Proof.
  split.
  - vm_compute. eexists; reflexivity.
  - vm_compute. intros H; discriminate H.
Qed.

Lemma delegation_proof_expiry_window_witness :
  (Toy.window <= DelegationProof.expiresAt Toy.proof
   <= Toy.window + DelegationStrategy.maxFuture)%Z
  /\ throws_code
       (DelegationStrategy.validateDelegatedCode (libs := Toy.libraries)
          Toy.config Toy.window
          (DelegationProof.expiresAt Toy.proof + 1) Toy.delegated_code)
       EXPIRED_CODE
  /\ throws_code
       (DelegationStrategy.generateDelegatedCode (libs := Toy.libraries)
          (crypto := Toy.crypto) Toy.config 1000 Toy.proof
          (generation_message Toy.delegate Toy.window) Toy.solana
          Toy.delegate_signature)
       INVALID_INPUT.
Proof.
  split; [|split].
  - apply (proj1 (delegation_proof_expiry_window (libs := Toy.libraries)
      (crypto := Toy.crypto) Toy.config Toy.window Toy.window
      Toy.delegated_code (generation_message Toy.delegate Toy.window)
      Toy.solana Toy.delegate_signature)).
    vm_compute. eexists; reflexivity.
  - apply (proj1 (proj2 (proj2 (delegation_proof_expiry_window
      (libs := Toy.libraries) (crypto := Toy.crypto) Toy.config
      (DelegationProof.expiresAt Toy.proof + 1) Toy.window
      Toy.delegated_code (generation_message Toy.delegate Toy.window)
      Toy.solana Toy.delegate_signature)))).
    + vm_compute. reflexivity.
    + vm_compute. reflexivity.
  - apply (proj2 (proj2 (proj2 (delegation_proof_expiry_window
      (libs := Toy.libraries) (crypto := Toy.crypto) Toy.config
      1000 Toy.window
      Toy.delegated_code (generation_message Toy.delegate Toy.window)
      Toy.solana Toy.delegate_signature)))).
    vm_compute. reflexivity.
Defined.

(** A code that outlives its proof, checked after the proof has expired
    and before the code has: the rejection is EXPIRED_CODE, not
    INVALID_INPUT. *)
Lemma outliving_code_rejected_as_expired :
  let a := Toy.outliving_code in
  (ActionCode.expiresAt (DelegatedActionCode.base a)
   > DelegationProof.expiresAt (DelegatedActionCode.delegationProof a))%Z
  /\ throws_code
       (DelegationStrategy.validateDelegatedCode (libs := Toy.libraries)
          Toy.config (Toy.window + 90000) (Toy.window + 90000) a)
       EXPIRED_CODE
  /\ ~ throws_code
       (DelegationStrategy.validateDelegatedCode (libs := Toy.libraries)
          Toy.config (Toy.window + 90000) (Toy.window + 90000) a)
       INVALID_INPUT.
Proof.
  split; [|split].
  - vm_compute. reflexivity.
  - vm_compute. eexists; reflexivity.
  - intros [d H]. vm_compute in H. discriminate H.
Qed.

Lemma validateDelegatedCode_outlives_witness :
  DelegationStrategy.validateDelegatedCode (libs := Toy.libraries)
    Toy.config (Toy.window + 30000) (Toy.window + 30000) Toy.outliving_code
  = throw DelegationStrategy.outlives_error
  /\ DelegationStrategy.validateDelegatedCode (libs := Toy.libraries)
       Toy.config (Toy.window + 30000) (Toy.window + 30000)
       Toy.delegated_code
     <> throw DelegationStrategy.outlives_error.
Proof.
  split.
  - apply (proj1 (validateDelegatedCode_outlives (libs := Toy.libraries)
      Toy.config (Toy.window + 30000) (Toy.window + 30000)
      Toy.outliving_code)).
    + vm_compute. reflexivity.
    + vm_compute. intros H; discriminate H.
    + vm_compute. reflexivity.
    + reflexivity.
  - apply (proj2 (validateDelegatedCode_outlives (libs := Toy.libraries)
      Toy.config (Toy.window + 30000) (Toy.window + 30000)
      Toy.delegated_code)).
    vm_compute. intros H; discriminate H.
Defined.

(** C9.  A delegated code whose code string is not eight decimal digits
    passes [validateDelegatedCode] under an eight-digit configuration:
    the format check of the wallet strategy is missing from the
    delegated path. *)
Theorem validateDelegatedCode_accepts_malformed_code :
  let a := DelegatedActionCode.with_code Toy.delegated_code
             (js "invalid-code") in
  WalletStrategy.code_format_test
    (WalletStrategy.clamped_code_length Toy.config)
    (ActionCode.code (DelegatedActionCode.base a)) = false
  /\ DelegationStrategy.validateDelegatedCode (libs := Toy.libraries)
       Toy.config (Toy.window + 5) (Toy.window + 6) a = Ok tt.
Proof. split; vm_compute; reflexivity. Qed.

Lemma toy_index_of_In (c : code_unit) (l : jsstring) (i : N) :
  Toy.index_of c l = Some i -> In c l.
Proof.
  revert i. induction l as [|x l IH]; simpl; [discriminate|].
  intros i. destruct (N.eqb_spec x c); [auto|].
  destruct (Toy.index_of c l); [|discriminate]. intros _. right. eauto.
Qed.

Lemma toy_base58_value_ascii (s : jsstring) (acc v : N) :
  Toy.base58_value acc s = Some v -> all_ascii s = true.
Proof.
  revert acc. induction s as [|c s IH]; [reflexivity|].
  cbn [Toy.base58_value]. intros acc.
  destruct (Toy.index_of c Toy.base58_alphabet) as [d|] eqn:Hd;
    [|discriminate].
  intros H. apply IH in H. unfold all_ascii in *.
  cbn [forallb]. rewrite H.
  apply toy_index_of_In in Hd.
  assert (Hall : forallb (fun c => c <? 0x80) Toy.base58_alphabet = true)
    by reflexivity.
  rewrite forallb_forall in Hall. now rewrite (Hall c Hd).
Qed.

(** The keys the stand-in accepts are base58, hence ASCII. *)
Lemma toy_publicKey_ascii (s : jsstring) :
  PublicKey_new (Libraries := Toy.libraries) s <> None ->
  all_ascii s = true.
Proof.
  cbn. unfold Toy.publicKey, Toy.base58_decode.
  destruct (Toy.base58_value 0 s) as [v|] eqn:Hv; [|congruence].
  intros _. eapply toy_base58_value_ascii; eauto.
Qed.

(** A code generated under a proof for [Toy.delegate] from the generation
    message of another key carries that other key. *)
Lemma generateDelegatedCode_foreign_message :
  exists a,
    DelegationStrategy.generateDelegatedCode (libs := Toy.libraries)
      (crypto := Toy.crypto) Toy.config (Toy.window + 1) Toy.proof
      (generation_message Toy.wallet Toy.window) Toy.solana
      Toy.wallet_signature = Ok a
    /\ DelegationStrategy.validateDelegationProof (libs := Toy.libraries)
         (Toy.window + 1) Toy.proof = Ok tt
    /\ ActionCode.pubkey (DelegatedActionCode.base a)
       <> DelegationProof.delegatedPubkey Toy.proof.
Proof.
  eexists. split; [|split].
  - vm_compute. reflexivity.
  - vm_compute. reflexivity.
  - vm_compute. intros H; discriminate H.
Qed.

Lemma generateDelegatedCode_pubkey_witness :
  exists a,
    DelegationStrategy.generateDelegatedCode (libs := Toy.libraries)
      (crypto := Toy.crypto) Toy.config (Toy.window + 1) Toy.proof
      (generation_message Toy.delegate Toy.window) Toy.solana
      Toy.delegate_signature = Ok a
    /\ ActionCodesProtocol.generate (libs := Toy.libraries)
         (crypto := Toy.crypto)
         (ActionCodesProtocol.new (libs := Toy.libraries)
            (crypto := Toy.crypto) Toy.config)
         Toy.window (Toy.window + 1)%Z
         (ActionCodesProtocol.GenerateDelegation Toy.proof) Toy.solana
         (Some Toy.sign_as_delegate)
       = Ok (ActionCodesProtocol.GeneratedDelegatedCode a)
    /\ DelegatedActionCode.delegationProof a = Toy.proof
    /\ ActionCode.pubkey (DelegatedActionCode.base a)
       = DelegationProof.delegatedPubkey Toy.proof.
Proof.
  eexists. split; [vm_compute; reflexivity|].
  split; [vm_compute; reflexivity|].
  match goal with
  | |- DelegatedActionCode.delegationProof ?a = _ /\ _ =>
      apply (proj2 (generateDelegatedCode_pubkey (libs := Toy.libraries)
        (crypto := Toy.crypto) Toy.proof Toy.solana a)
        toy_publicKey_ascii
        (ActionCodesProtocol.new (libs := Toy.libraries)
           (crypto := Toy.crypto) Toy.config)
        Toy.window (Toy.window + 1)%Z (Some Toy.sign_as_delegate))
  end.
  vm_compute. reflexivity.
Defined.

(** ** Solana adapter: signature predicates *)

Section AdapterFacts.
Context {libs : Libraries} {crypto : CryptoUtils}.

Import SolanaAdapter.

(** A [try] block whose handler returns [false] never throws. *)
Lemma mcatch_false_total (m : M bool) (n : nat) :
  exists b n', mcatch m (fun _ => mret false) n = (Ok b, n').
Proof.
  unfold mcatch, mret. destruct (m n) as [[e|b] n']; eauto.
Qed.

Lemma verifyWithWallet_total (a : Untyped.ActionCode) (n : nat) :
  exists b n', verifyWithWallet a n = (Ok b, n').
Proof.
  unfold verifyWithWallet.
  destruct (Untyped.differs _ _); [unfold mret; eauto|].
  destruct (Untyped.truthy_string (Untyped.pubkey a));
    [|unfold mret; eauto].
  destruct (Untyped.truthy_number _); [|unfold mret; eauto].
  destruct (Untyped.truthy_string _); [|unfold mret; eauto].
  apply mcatch_false_total.
Qed.

Lemma verifyRevokeWithWallet_total (a : Untyped.ActionCode)
    (rs : option jsstring) (n : nat) :
  exists b n', verifyRevokeWithWallet a rs n = (Ok b, n').
Proof.
  unfold verifyRevokeWithWallet.
  destruct (Untyped.differs _ _); [unfold mret; eauto|].
  destruct (Untyped.truthy_string (Untyped.pubkey a));
    [|unfold mret; eauto].
  destruct (Untyped.truthy_number _); [|unfold mret; eauto].
  destruct (Untyped.truthy_string _); [|unfold mret; eauto].
  apply mcatch_false_total.
Qed.

Lemma verifyRevokeWithDelegation_total (now : Z) (a : Untyped.ActionCode)
    (rs : option jsstring) (n : nat) :
  exists b n', verifyRevokeWithDelegation now a rs n = (Ok b, n').
Proof.
  unfold verifyRevokeWithDelegation.
  destruct (Untyped.differs _ _); [unfold mret; eauto|].
  destruct (Untyped.truthy_string (Untyped.pubkey a));
    [|unfold mret; eauto].
  destruct (Untyped.truthy_number _); [|unfold mret; eauto].
  destruct (Untyped.truthy_string _); [|unfold mret; eauto].
  destruct (Untyped.delegationProof a); [|unfold mret; eauto].
  destruct (truthy_proof _); [|unfold mret; eauto].
  repeat (break_if; [unfold mret; eauto|]).
  apply mcatch_false_total.
Qed.

(** [verifyWithDelegation] never throws on a code that carries a proof. *)
Lemma verifyWithDelegation_total (now : Z) (a : Untyped.ActionCode)
    (n : nat) :
  Untyped.delegationProof a <> None ->
  exists b n', verifyWithDelegation now a n = (Ok b, n').
Proof.
  intros Hp. unfold verifyWithDelegation.
  destruct (Untyped.differs _ _); [unfold mret; eauto|].
  destruct (Untyped.truthy_string (Untyped.pubkey a));
    [|unfold mret; eauto].
  destruct (Untyped.truthy_number _); [|unfold mret; eauto].
  destruct (Untyped.truthy_string _); [|unfold mret; eauto].
  destruct (Untyped.delegationProof a); [|contradiction].
  destruct (truthy_proof _); [|unfold mret; eauto].
  repeat (break_if; [unfold mret; eauto|]).
  apply mcatch_false_total.
Qed.

(** On a code without a proof that passes the first field checks,
    [verifyWithDelegation] throws. *)
Lemma verifyWithDelegation_throws (now : Z) (a : Untyped.ActionCode)
    (pk sig : jsstring) (t : Z) :
  Untyped.ac_chain a = Some ADAPTER_CHAIN_NAME ->
  Untyped.truthy_string (Untyped.pubkey a) = Some pk ->
  Untyped.truthy_number (Untyped.timestamp a) = Some t ->
  Untyped.truthy_string (Untyped.ac_signature a) = Some sig ->
  Untyped.delegationProof a = None ->
  outcome (verifyWithDelegation now a) = throw TypeError.
Proof.
  intros Hc Hpk Ht Hs Hp. unfold outcome, verifyWithDelegation.
  rewrite Hc, Hpk, Ht, Hs, Hp. cbn. rewrite str_eqb_refl. reflexivity.
Qed.

End AdapterFacts.

(** C6.  [verifyWithDelegation] on a delegated code that arrives without
    its [delegationProof] throws instead of returning [false], while
    [verifyRevokeWithDelegation] returns [false] on the same code. *)
Theorem verifyWithDelegation_throws_without_proof :
  outcome (SolanaAdapter.verifyWithDelegation (libs := Toy.libraries)
             Toy.window Toy.code_without_proof)
  = throw TypeError
  /\ outcome (SolanaAdapter.verifyRevokeWithDelegation
                (libs := Toy.libraries) (crypto := Toy.crypto) Toy.window
                Toy.code_without_proof (Some Toy.delegate_signature))
     = Ok false.
Proof. split; vm_compute; reflexivity. Qed.

Ltac break_inner :=
  match goal with
  | |- context [match ?x with _ => _ end] =>
      lazymatch x with
      | context [match _ with _ => _ end] => fail
      | _ => destruct x eqn:?
      end
  end.

Ltac unfold_adapter :=
  unfold mcatch, mbind, lift, mret, mthrow, SolanaAdapter.verify,
    SolanaAdapter.decodes, SolanaAdapter.normalizePubkey,
    SolanaAdapter.is_ok, from_lib, throw, Ok in *.

Section AdapterCounts.
Context {libs : Libraries} {crypto : CryptoUtils}.

Import SolanaAdapter.

(** The contract of [nacl.sign.detached.verify]: on a 64-byte signature
    and a 32-byte key it answers, it does not throw. *)
Hypothesis verify_total :
  forall message signature publicKey,
    length signature = 64%nat -> length publicKey = 32%nat ->
    nacl_sign_detached_verify message signature publicKey <> None.

Lemma verify_answers (m s k : bytes) :
  bad_lengths s k = false ->
  exists b, nacl_sign_detached_verify m s k = Some b.
Proof.
  unfold bad_lengths. intros H. apply orb_false_iff in H as [H1 H2].
  apply negb_false_iff in H1, H2. apply Nat.eqb_eq in H1, H2.
  destruct (nacl_sign_detached_verify m s k) as [b|] eqn:E; [eauto|].
  exfalso. eapply verify_total; eauto.
Qed.

Lemma verifyWithWallet_count (a : Untyped.ActionCode) :
  verifications (verifyWithWallet a)
  = if wallet_checks_pass a then 1%nat else 0%nat.
Proof.
  unfold verifications, verifyWithWallet, wallet_checks_pass.
  destruct (Untyped.differs _ _); [reflexivity|].
  destruct (Untyped.truthy_string (Untyped.pubkey a)) as [pk|];
    [|reflexivity].
  destruct (Untyped.truthy_number _) as [t|]; [|reflexivity].
  destruct (Untyped.truthy_string _) as [s|]; [|reflexivity].
  unfold_adapter. cbn.
  destruct (serializeCanonical _) as [e|m]; [reflexivity|].
  destruct (PublicKey_new pk) as [pub|]; [|reflexivity].
  destruct (bs58_decode s) as [sg|]; [|reflexivity].
  cbn. destruct (bad_lengths sg pub); [reflexivity|].
  cbn. destruct (nacl_sign_detached_verify _ _ _); reflexivity.
Qed.

Lemma verifyRevokeWithWallet_count (a : Untyped.ActionCode)
    (rs : option jsstring) :
  verifications (verifyRevokeWithWallet a rs)
  = if revoke_wallet_checks_pass a rs then 1%nat else 0%nat.
Proof.
  unfold verifications, verifyRevokeWithWallet, revoke_wallet_checks_pass.
  destruct (Untyped.differs _ _); [reflexivity|].
  destruct (Untyped.truthy_string (Untyped.pubkey a)) as [pk|];
    [|reflexivity].
  destruct (Untyped.truthy_number _) as [t|]; [|reflexivity].
  destruct (Untyped.truthy_string _) as [s|]; [|reflexivity].
  unfold_adapter. cbn.
  destruct (serializeCanonicalRevoke _) as [e|m]; [reflexivity|].
  destruct (PublicKey_new pk) as [pub|]; [|reflexivity].
  destruct (bs58_decode s) as [sg|]; [|reflexivity].
  cbn. destruct (bad_lengths sg pub); [reflexivity|].
  cbn. destruct (nacl_sign_detached_verify _ _ _); reflexivity.
Qed.

Lemma verifyWithDelegation_count (now : Z) (a : Untyped.ActionCode) :
  verifications (verifyWithDelegation now a)
  = if delegation_checks_pass now a then 2%nat else 0%nat.
Proof.
  unfold verifications, verifyWithDelegation, delegation_checks_pass,
    proof_checks_pass.
  destruct (Untyped.differs _ _); [reflexivity|].
  destruct (Untyped.truthy_string (Untyped.pubkey a)) as [pk|];
    [|reflexivity].
  destruct (Untyped.truthy_number _) as [t|]; [|reflexivity].
  destruct (Untyped.truthy_string _) as [s|]; [|reflexivity].
  destruct (Untyped.delegationProof a) as [up|]; [|reflexivity].
  destruct (truthy_proof up) as [proof|]; [|reflexivity].
  cbn. destruct (str_eqb (DelegationProof.chain proof) _); [|reflexivity].
  destruct (str_eqb pk _); [|reflexivity].
  destruct (DelegationProof.expiresAt proof <? now)%Z; [reflexivity|].
  unfold_adapter. cbn.
  destruct (serializeDelegationProof proof) as [e|dm]; [reflexivity|].
  destruct (PublicKey_new (DelegationProof.walletPubkey proof))
    as [wpub|]; [|reflexivity].
  destruct (bs58_decode (DelegationProof.signature proof)) as [wsig|];
    [|reflexivity].
  cbn. destruct (bad_lengths wsig wpub) eqn:Hw.
  { cbn. repeat (break_inner; cbn); reflexivity. }
  cbn. destruct (serializeCanonical _) as [e|cm]; [reflexivity|].
  destruct (PublicKey_new (DelegationProof.delegatedPubkey proof))
    as [dpub|]; [|reflexivity].
  destruct (bs58_decode s) as [dsig|]; [|reflexivity].
  cbn. destruct (bad_lengths dsig dpub) eqn:Hd; [reflexivity|].
  cbn. destruct (verify_answers dm _ _ Hw) as [b1 ->].
  destruct (verify_answers cm _ _ Hd) as [b2 ->]. reflexivity.
Qed.

Lemma verifyRevokeWithDelegation_count (now : Z) (a : Untyped.ActionCode)
    (rs : option jsstring) :
  verifications (verifyRevokeWithDelegation now a rs)
  = if revoke_delegation_checks_pass now a rs then 2%nat else 0%nat.
Proof.
  unfold verifications, verifyRevokeWithDelegation,
    revoke_delegation_checks_pass, proof_checks_pass.
  destruct (Untyped.differs _ _); [reflexivity|].
  destruct (Untyped.truthy_string (Untyped.pubkey a)) as [pk|];
    [|reflexivity].
  destruct (Untyped.truthy_number _) as [t|]; [|reflexivity].
  destruct (Untyped.truthy_string _) as [s|]; [|reflexivity].
  destruct (Untyped.delegationProof a) as [up|];
    [|destruct rs; reflexivity].
  destruct (truthy_proof up) as [proof|]; [|destruct rs; reflexivity].
  cbn. destruct (str_eqb (DelegationProof.chain proof) _);
    [|destruct rs; reflexivity].
  destruct (str_eqb pk _); [|destruct rs; reflexivity].
  destruct (DelegationProof.expiresAt proof <? now)%Z;
    [destruct rs; reflexivity|].
  unfold_adapter. cbn.
  destruct (serializeDelegationProof proof) as [e|dm];
    [destruct rs; reflexivity|].
  destruct (PublicKey_new (DelegationProof.walletPubkey proof))
    as [wpub|]; [|destruct rs; reflexivity].
  destruct (bs58_decode (DelegationProof.signature proof)) as [wsig|];
    [|destruct rs; reflexivity].
  cbn. destruct (bad_lengths wsig wpub) eqn:Hw.
  { cbn. destruct rs; repeat (break_inner; cbn); reflexivity. }
  cbn. destruct (serializeCanonicalRevoke _) as [e|cm];
    [destruct rs; reflexivity|].
  destruct (PublicKey_new (DelegationProof.delegatedPubkey proof))
    as [dpub|]; [|destruct rs; reflexivity].
  destruct rs as [r|]; [|reflexivity].
  destruct (bs58_decode r) as [dsig|]; [|reflexivity].
  cbn. destruct (bad_lengths dsig dpub) eqn:Hd; [reflexivity|].
  cbn. destruct (verify_answers dm _ _ Hw) as [b1 ->].
  destruct (verify_answers cm _ _ Hd) as [b2 ->]. reflexivity.
Qed.

End AdapterCounts.

Section AdapterAgreement.
Context (libs libs' : Libraries) {crypto : CryptoUtils}.

Import SolanaAdapter.

(** Two libraries that decode alike (and may verify differently). *)
Hypothesis same_decode :
  forall s, bs58_decode (Libraries := libs) s
            = bs58_decode (Libraries := libs') s.
Hypothesis same_keys :
  forall s, PublicKey_new (Libraries := libs) s
            = PublicKey_new (Libraries := libs') s.

Lemma decodes_agree (signature pubkey : jsstring) :
  decodes (libs := libs) signature pubkey
  = decodes (libs := libs') signature pubkey.
Proof. unfold decodes. now rewrite same_decode, same_keys. Qed.

Lemma proof_checks_agree (now : Z) (pubkey : jsstring)
    (up : option Untyped.DelegationProof) :
  proof_checks_pass (libs := libs) now pubkey up
  = proof_checks_pass (libs := libs') now pubkey up.
Proof.
  unfold proof_checks_pass. destruct up as [up|]; [|reflexivity].
  destruct (truthy_proof up); [|reflexivity].
  now rewrite decodes_agree.
Qed.

Lemma wallet_checks_agree (a : Untyped.ActionCode) :
  wallet_checks_pass (libs := libs) a = wallet_checks_pass (libs := libs') a.
Proof.
  unfold wallet_checks_pass.
  repeat break_inner; try reflexivity. now rewrite decodes_agree.
Qed.

Lemma revoke_wallet_checks_agree (a : Untyped.ActionCode)
    (rs : option jsstring) :
  revoke_wallet_checks_pass (libs := libs) a rs
  = revoke_wallet_checks_pass (libs := libs') a rs.
Proof.
  unfold revoke_wallet_checks_pass.
  repeat break_inner; try reflexivity. now rewrite decodes_agree.
Qed.

Lemma delegation_checks_agree (now : Z) (a : Untyped.ActionCode) :
  delegation_checks_pass (libs := libs) now a
  = delegation_checks_pass (libs := libs') now a.
Proof.
  unfold delegation_checks_pass.
  destruct (Untyped.truthy_string (Untyped.pubkey a)); [|reflexivity].
  destruct (Untyped.truthy_number _); [|reflexivity].
  destruct (Untyped.truthy_string _); [|reflexivity].
  rewrite proof_checks_agree.
  destruct (proof_checks_pass _ _ _); [|reflexivity].
  now rewrite decodes_agree.
Qed.

Lemma revoke_delegation_checks_agree (now : Z) (a : Untyped.ActionCode)
    (rs : option jsstring) :
  revoke_delegation_checks_pass (libs := libs) now a rs
  = revoke_delegation_checks_pass (libs := libs') now a rs.
Proof.
  unfold revoke_delegation_checks_pass.
  destruct (Untyped.truthy_string (Untyped.pubkey a)); [|reflexivity].
  destruct (Untyped.truthy_number _); [|reflexivity].
  destruct (Untyped.truthy_string _); [|reflexivity].
  destruct rs; [|reflexivity].
  rewrite proof_checks_agree.
  destruct (proof_checks_pass _ _ _); [|reflexivity].
  now rewrite decodes_agree.
Qed.

End AdapterAgreement.

(** C5 (as amended).  The number of Ed25519 verifications of each adapter
    predicate is decided by the checks that precede the verifications
    alone: 1 for the wallet predicates and 2 for the delegated ones on a
    code that passes those checks, 0 on a code they reject.  It never
    depends on the answer of a verification: two libraries that decode
    alike and verify differently perform the same number, and a delegated
    predicate never stops after its first verification. *)
Theorem adapter_verification_counts
    (libs libs' : Libraries) (crypto : CryptoUtils)
    (now : Z) (a : Untyped.ActionCode) (revokeSignature : option jsstring) :
  (forall message signature publicKey,
     length signature = 64%nat -> length publicKey = 32%nat ->
     nacl_sign_detached_verify (Libraries := libs)
       message signature publicKey <> None) ->
  (forall message signature publicKey,
     length signature = 64%nat -> length publicKey = 32%nat ->
     nacl_sign_detached_verify (Libraries := libs')
       message signature publicKey <> None) ->
  (forall s, bs58_decode (Libraries := libs) s
             = bs58_decode (Libraries := libs') s) ->
  (forall s, PublicKey_new (Libraries := libs) s
             = PublicKey_new (Libraries := libs') s) ->
  (verifications (SolanaAdapter.verifyWithWallet (libs := libs) a)
     = (if SolanaAdapter.wallet_checks_pass (libs := libs) a
        then 1 else 0)%nat
   /\ verifications
        (SolanaAdapter.verifyRevokeWithWallet (libs := libs) a
           revokeSignature)
      = (if SolanaAdapter.revoke_wallet_checks_pass (libs := libs) a
              revokeSignature
         then 1 else 0)%nat
   /\ verifications
        (SolanaAdapter.verifyWithDelegation (libs := libs) now a)
      = (if SolanaAdapter.delegation_checks_pass (libs := libs) now a
         then 2 else 0)%nat
   /\ verifications
        (SolanaAdapter.verifyRevokeWithDelegation (libs := libs) now a
           revokeSignature)
      = (if SolanaAdapter.revoke_delegation_checks_pass (libs := libs)
              now a revokeSignature
         then 2 else 0)%nat)
  /\
  (verifications (SolanaAdapter.verifyWithWallet (libs := libs) a)
     = verifications (SolanaAdapter.verifyWithWallet (libs := libs') a)
   /\ verifications
        (SolanaAdapter.verifyRevokeWithWallet (libs := libs) a
           revokeSignature)
      = verifications
          (SolanaAdapter.verifyRevokeWithWallet (libs := libs') a
             revokeSignature)
   /\ verifications
        (SolanaAdapter.verifyWithDelegation (libs := libs) now a)
      = verifications
          (SolanaAdapter.verifyWithDelegation (libs := libs') now a)
   /\ verifications
        (SolanaAdapter.verifyRevokeWithDelegation (libs := libs) now a
           revokeSignature)
      = verifications
          (SolanaAdapter.verifyRevokeWithDelegation (libs := libs') now a
             revokeSignature)).
Proof.
  intros Htotal Htotal' Hdecode Hkeys. split; repeat split.
  - apply verifyWithWallet_count.
  - apply verifyRevokeWithWallet_count.
  - now apply verifyWithDelegation_count.
  - now apply verifyRevokeWithDelegation_count.
  - rewrite !verifyWithWallet_count.
    now rewrite (wallet_checks_agree libs libs').
  - rewrite !verifyRevokeWithWallet_count.
    now rewrite (revoke_wallet_checks_agree libs libs').
  - rewrite !verifyWithDelegation_count by assumption.
    now rewrite (delegation_checks_agree libs libs').
  - rewrite !verifyRevokeWithDelegation_count by assumption.
    now rewrite (revoke_delegation_checks_agree libs libs').
Qed.

Lemma toy_verify_total (message signature publicKey : bytes) :
  length signature = 64%nat -> length publicKey = 32%nat ->
  nacl_sign_detached_verify (Libraries := Toy.libraries)
    message signature publicKey <> None.
Proof.
  intros Hs Hk. cbn. unfold Toy.verify. rewrite Hs, Hk. discriminate.
Qed.

(** A wallet code for another chain is rejected without any Ed25519
    verification. *)
Lemma wrong_chain_is_not_verified :
  outcome (SolanaAdapter.verifyWithWallet (libs := Toy.libraries)
             (Untyped.of_action_code Toy.ethereum_code)) = Ok false
  /\ verifications
       (SolanaAdapter.verifyWithWallet (libs := Toy.libraries)
          (Untyped.of_action_code Toy.ethereum_code)) <> 1%nat.
Proof.
  split.
  - vm_compute. reflexivity.
  - vm_compute. intros H; discriminate H.
Qed.

Lemma toy_credulous_total (message signature publicKey : bytes) :
  length signature = 64%nat -> length publicKey = 32%nat ->
  nacl_sign_detached_verify (Libraries := Toy.credulous)
    message signature publicKey <> None.
Proof.
  intros Hs Hk. cbn. rewrite Hs, Hk. discriminate.
Qed.

Lemma adapter_verification_counts_witness :
  (verifications
     (SolanaAdapter.verifyWithWallet (libs := Toy.libraries)
        (Untyped.of_action_code Toy.forged_wallet_code)) = 1%nat
   /\ outcome
        (SolanaAdapter.verifyWithWallet (libs := Toy.libraries)
           (Untyped.of_action_code Toy.forged_wallet_code)) = Ok false)
  /\ verifications
       (SolanaAdapter.verifyWithDelegation (libs := Toy.libraries)
          Toy.window (Untyped.of_delegated Toy.delegated_code)) = 2%nat
  /\ (verifications
        (SolanaAdapter.verifyRevokeWithDelegation (libs := Toy.libraries)
           (crypto := Toy.crypto) Toy.window
           (Untyped.of_delegated Toy.delegated_code)
           (Some Toy.other_signature))
      = verifications
          (SolanaAdapter.verifyRevokeWithDelegation (libs := Toy.credulous)
             (crypto := Toy.crypto) Toy.window
             (Untyped.of_delegated Toy.delegated_code)
             (Some Toy.other_signature))
      /\ outcome
           (SolanaAdapter.verifyRevokeWithDelegation
              (libs := Toy.libraries) (crypto := Toy.crypto) Toy.window
              (Untyped.of_delegated Toy.delegated_code)
              (Some Toy.other_signature)) = Ok false
      /\ outcome
           (SolanaAdapter.verifyRevokeWithDelegation
              (libs := Toy.credulous) (crypto := Toy.crypto) Toy.window
              (Untyped.of_delegated Toy.delegated_code)
              (Some Toy.other_signature)) = Ok true).
Proof.
  split; [split|split; [|split; [|split]]].
  - rewrite (proj1 (proj1 (adapter_verification_counts Toy.libraries
      Toy.credulous Toy.crypto Toy.window
      (Untyped.of_action_code Toy.forged_wallet_code) None
      toy_verify_total toy_credulous_total
      (fun _ => eq_refl) (fun _ => eq_refl)))).
    vm_compute. reflexivity.
  - vm_compute. reflexivity.
  - rewrite (proj1 (proj2 (proj2 (proj1 (adapter_verification_counts
      Toy.libraries Toy.credulous Toy.crypto Toy.window
      (Untyped.of_delegated Toy.delegated_code) None
      toy_verify_total toy_credulous_total
      (fun _ => eq_refl) (fun _ => eq_refl)))))).
    vm_compute. reflexivity.
  - apply (proj2 (proj2 (proj2 (proj2 (adapter_verification_counts
      Toy.libraries Toy.credulous Toy.crypto Toy.window
      (Untyped.of_delegated Toy.delegated_code) (Some Toy.other_signature)
      toy_verify_total toy_credulous_total
      (fun _ => eq_refl) (fun _ => eq_refl)))))).
  - vm_compute. reflexivity.
  - vm_compute. reflexivity.
Defined.

(** ** Solana adapter: transaction meta *)

Ltac legacy_fallback :=
  destruct (Transaction_from _); [|discriminate];
  destruct (Transaction_serialize _); discriminate.

Section TransactionFacts.
Context {web3 : Web3} {codec : ProtocolMetaCodec} {crypto : CryptoUtils}.

Import SolanaAdapter.

Lemma first_protocol_meta_parses (memos : list TransactionInstruction)
    (s : jsstring) :
  first_protocol_meta memos = Some s ->
  exists m, parseProtocolMeta s = Ok (Some m).
Proof.
  induction memos as [|ix rest IH]; simpl; [discriminate|].
  destruct (parseProtocolMeta (TextDecoder_decode (ix_data ix)))
    as [e|[m|]] eqn:Hp; auto.
  intros [= <-]. eauto.
Qed.

(** [parseMeta] never throws: the string it parses has parsed before. *)
Lemma parseMeta_total (txString : jsstring) :
  exists r, parseMeta txString = Ok r.
Proof.
  unfold parseMeta, getProtocolMeta.
  destruct (deserializeTransaction txString) as [e|tx]; [eauto|].
  destruct (first_protocol_meta _) as [s|] eqn:Hs; [|eauto].
  destruct (str_falsy s); [eauto|].
  destruct (first_protocol_meta_parses _ _ Hs) as [m ->]. eauto.
Qed.

Lemma verifyTransactionMatchesCode_Ok
    (now : Z) (a : ActionCode.t) (txString : jsstring) :
  verifyTransactionMatchesCode now a txString = Ok tt <->
  exists m, parseMeta txString = Ok (Some m)
            /\ ver m = 2%Z
            /\ id m = codeHash (ActionCode.code a)
            /\ int m = ActionCode.pubkey a
            /\ (now <= ActionCode.expiresAt a)%Z.
Proof.
  unfold verifyTransactionMatchesCode. split.
  - destruct (Z.gtb_spec now (ActionCode.expiresAt a)); [discriminate|].
    destruct (parseMeta_total txString) as [[m|] Hp]; rewrite Hp; cbn;
      [|discriminate].
    destruct (Z.eqb_spec (ver m) 2); cbn; [|discriminate].
    destruct (str_eqb (id m) _) eqn:Hid; cbn; [|discriminate].
    destruct (str_eqb (int m) _) eqn:Hint; cbn; [|discriminate].
    apply str_eqb_eq in Hid, Hint. intros _. exists m. auto.
  - intros (m & Hp & Hv & Hid & Hint & Hle).
    destruct (Z.gtb_spec now (ActionCode.expiresAt a)); [lia|].
    rewrite Hp. cbn. rewrite Hv. cbn.
    rewrite Hid, str_eqb_refl. cbn. rewrite Hint, str_eqb_refl.
    reflexivity.
Qed.

Lemma verifyTransactionMatchesCode_expired
    (now : Z) (a : ActionCode.t) (txString : jsstring) :
  (now > ActionCode.expiresAt a)%Z ->
  verifyTransactionMatchesCode now a txString
  = throw (expiredCode (ActionCode.code a)).
Proof.
  intros H. unfold verifyTransactionMatchesCode.
  destruct (Z.gtb_spec now (ActionCode.expiresAt a)); [reflexivity|lia].
Qed.

Lemma verifyTransactionMatchesCode_missing
    (now : Z) (a : ActionCode.t) (txString : jsstring) :
  (now <= ActionCode.expiresAt a)%Z -> parseMeta txString = Ok None ->
  verifyTransactionMatchesCode now a txString = throw missingMeta.
Proof.
  intros H Hp. unfold verifyTransactionMatchesCode.
  destruct (Z.gtb_spec now (ActionCode.expiresAt a)); [lia|].
  rewrite Hp. reflexivity.
Qed.

Lemma verifyTransactionMatchesCode_mismatch
    (now : Z) (a : ActionCode.t) (txString : jsstring)
    (m : ProtocolMetaFields) :
  (now <= ActionCode.expiresAt a)%Z ->
  parseMeta txString = Ok (Some m) ->
  (ver m <> 2%Z ->
   verifyTransactionMatchesCode now a txString
   = throw (metaMismatch (js "2") (Number_toString (ver m)) "ver"))
  /\
  (ver m = 2%Z -> id m <> codeHash (ActionCode.code a) ->
   verifyTransactionMatchesCode now a txString
   = throw (metaMismatch (codeHash (ActionCode.code a)) (id m) "id"))
  /\
  (ver m = 2%Z -> id m = codeHash (ActionCode.code a) ->
   int m <> ActionCode.pubkey a ->
   verifyTransactionMatchesCode now a txString
   = throw (metaMismatch (ActionCode.pubkey a) (int m) "int")).
Proof.
  intros H Hp. unfold verifyTransactionMatchesCode.
  destruct (Z.gtb_spec now (ActionCode.expiresAt a)); [lia|].
  rewrite Hp. cbn. split; [|split].
  - intros Hv. destruct (Z.eqb_spec (ver m) 2); [contradiction|].
    reflexivity.
  - intros Hv Hid. rewrite Hv. cbn.
    apply str_eqb_neq in Hid. rewrite Hid. reflexivity.
  - intros Hv Hid Hint. rewrite Hv. cbn.
    rewrite Hid, str_eqb_refl. cbn.
    apply str_eqb_neq in Hint. rewrite Hint. reflexivity.
Qed.

(** C2.  [verifyTransactionMatchesCode] returns exactly when the
    transaction carries a meta with version 2, the code hash of the code
    as id and the code's pubkey as intent owner, and the code has not
    expired; otherwise it throws EXPIRED_CODE when the code has expired,
    else MISSING_META when no meta can be parsed, else META_MISMATCH
    naming the first offending field among ver, id, int. *)
Theorem verifyTransactionMatchesCode_spec
    (now : Z) (a : ActionCode.t) (txString : jsstring) :
  (verifyTransactionMatchesCode now a txString = Ok tt <->
   exists m, parseMeta txString = Ok (Some m)
             /\ ver m = 2%Z
             /\ id m = codeHash (ActionCode.code a)
             /\ int m = ActionCode.pubkey a
             /\ (now <= ActionCode.expiresAt a)%Z)
  /\
  ((now > ActionCode.expiresAt a)%Z ->
   verifyTransactionMatchesCode now a txString
   = throw (expiredCode (ActionCode.code a)))
  /\
  ((now <= ActionCode.expiresAt a)%Z -> parseMeta txString = Ok None ->
   verifyTransactionMatchesCode now a txString = throw missingMeta)
  /\
  (forall m,
     (now <= ActionCode.expiresAt a)%Z ->
     parseMeta txString = Ok (Some m) ->
     (ver m <> 2%Z ->
      verifyTransactionMatchesCode now a txString
      = throw (metaMismatch (js "2") (Number_toString (ver m)) "ver"))
     /\
     (ver m = 2%Z -> id m <> codeHash (ActionCode.code a) ->
      verifyTransactionMatchesCode now a txString
      = throw (metaMismatch (codeHash (ActionCode.code a)) (id m) "id"))
     /\
     (ver m = 2%Z -> id m = codeHash (ActionCode.code a) ->
      int m <> ActionCode.pubkey a ->
      verifyTransactionMatchesCode now a txString
      = throw (metaMismatch (ActionCode.pubkey a) (int m) "int")))
  /\
  (exists r, parseMeta txString = Ok r).
Proof.
  split; [apply verifyTransactionMatchesCode_Ok|].
  split; [apply verifyTransactionMatchesCode_expired|].
  split; [apply verifyTransactionMatchesCode_missing|].
  split; [apply verifyTransactionMatchesCode_mismatch|].
  apply parseMeta_total.
Qed.

(** What a successful [attachProtocolMeta] built, when the result is a
    versioned transaction: a [MessageV0], signed as the revision says,
    serialized to the returned string. *)
Lemma attachProtocolMeta_with_versioned
    (get : jsstring -> option jsstring)
    (signatures_of : VersionedTransaction -> Message -> list bytes)
    (txString : jsstring) (meta : ProtocolMetaFields)
    (connection : option Connection)
    (newTx : VersionedTransaction) (out : jsstring) :
  attachProtocolMeta_with get signatures_of txString meta connection
  = Ok (Versioned newTx, out) ->
  exists versionedTx msg newMsg,
    VersionedTransaction_deserialize txString = Some versionedTx
    /\ vtx_message versionedTx = MessageV0 msg
    /\ vtx_message newTx = MessageV0 newMsg
    /\ vtx_signatures newTx = signatures_of versionedTx newMsg
    /\ VersionedTransaction_serialize newTx = Some out.
Proof.
  unfold attachProtocolMeta_with, attach_legacy. unfold_result.
  destruct (get txString) as [[|c s]|]; [|discriminate|].
  all: destruct (createProtocolMetaIx meta) as [e|metaIx]; [discriminate|].
  all: destruct (VersionedTransaction_deserialize txString) as [v|] eqn:Hv;
    [|cbn; legacy_fallback].
  all: destruct (vtx_message v) as [msg|msg] eqn:Hm;
    [|cbn; legacy_fallback].
  all: destruct (_ && _);
    [|cbn; destruct (VersionedTransaction_serialize _) eqn:Hs; cbn;
      [intros [= <- <-]; eexists v, msg, _; cbn; auto|legacy_fallback]].
  all: destruct connection as [conn|]; cbn; [|discriminate].
  all: destruct (resolve_lookup_tables conn _) as [e|alts]; cbn;
    [destruct (is_protocol_error e); [discriminate|legacy_fallback]|].
  all: destruct (TransactionMessage_decompile msg alts) as [dm|]; cbn;
    [|legacy_fallback].
  all: destruct (compileToV0Message _ alts) as [rm|]; cbn;
    [|legacy_fallback].
  all: destruct (VersionedTransaction_serialize _) as [o|] eqn:Hs; cbn;
    [|legacy_fallback].
  all: intros [= <- <-]; exists v, msg, rm; cbn; auto.
Qed.

(** In the second revision, the signatures of the returned versioned
    transaction are fresh: one zero-filled signature per required signer
    of the rewritten message, whatever the input carried. *)
Lemma attachProtocolMeta_fresh_signatures
    (txString : jsstring) (meta : ProtocolMetaFields)
    (connection : option Connection)
    (newTx : VersionedTransaction) (out : jsstring) :
  SolanaAdapterR2.attachProtocolMeta_built txString meta connection
  = Ok (Versioned newTx, out) ->
  vtx_signatures newTx
  = repeat zero_signature
      (numRequiredSignatures (header (message_of (vtx_message newTx))))
  /\ Forall (fun sig => sig = repeat 0 64) (vtx_signatures newTx)
  /\ VersionedTransaction_serialize newTx = Some out.
Proof.
  intros H. apply attachProtocolMeta_with_versioned in H
    as (v & msg & newMsg & _ & _ & Hm & Hs & Hout).
  rewrite Hm, Hs. cbn. unfold SolanaAdapterR2.fresh_signatures.
  repeat split; auto.
  apply Forall_forall. intros sig Hin.
  apply list_elem_of_In, repeat_spec in Hin. exact Hin.
Qed.

(** In the first revision, they are the signatures of the input. *)
Lemma attachProtocolMeta_keeps_signatures
    (txString : jsstring) (meta : ProtocolMetaFields)
    (connection : option Connection)
    (newTx : VersionedTransaction) (out : jsstring) :
  attachProtocolMeta_built txString meta connection
  = Ok (Versioned newTx, out) ->
  exists versionedTx,
    VersionedTransaction_deserialize txString = Some versionedTx
    /\ vtx_signatures newTx = vtx_signatures versionedTx.
Proof.
  intros H. apply attachProtocolMeta_with_versioned in H
    as (v & msg & newMsg & Hv & _ & _ & Hs & _).
  eauto.
Qed.

End TransactionFacts.

Lemma verifyTransactionMatchesCode_spec_witness :
  SolanaAdapter.verifyTransactionMatchesCode (web3 := Toy.web3)
    (codec := Toy.codec) (crypto := Toy.crypto) Toy.window Toy.wallet_code
    (js "memo-transaction") = Ok tt
  /\ SolanaAdapter.verifyTransactionMatchesCode (web3 := Toy.web3)
       (codec := Toy.codec) (crypto := Toy.crypto) (Toy.window + 120001)
       Toy.wallet_code (js "memo-transaction")
     = throw (expiredCode (js "12345678"))
  /\ SolanaAdapter.verifyTransactionMatchesCode (web3 := Toy.web3)
       (codec := Toy.codec) (crypto := Toy.crypto) Toy.window
       Toy.wallet_code (js "signed-transaction") = throw missingMeta
  /\ SolanaAdapter.verifyTransactionMatchesCode (web3 := Toy.web3)
       (codec := Toy.codec) (crypto := Toy.crypto) Toy.window
       Toy.delegated_code.(DelegatedActionCode.base)
       (js "memo-transaction")
     = throw (metaMismatch Toy.delegate Toy.wallet "int").
Proof.
  split; [|split; [|split]].
  - apply (proj1 (verifyTransactionMatchesCode_spec (web3 := Toy.web3)
      (codec := Toy.codec) (crypto := Toy.crypto) Toy.window
      Toy.wallet_code (js "memo-transaction"))).
    exists Toy.wallet_meta. repeat split; vm_compute; try reflexivity.
    intros H; discriminate H.
  - apply (proj1 (proj2 (verifyTransactionMatchesCode_spec
      (web3 := Toy.web3) (codec := Toy.codec) (crypto := Toy.crypto)
      (Toy.window + 120001) Toy.wallet_code (js "memo-transaction")))).
    vm_compute. reflexivity.
  - apply (proj1 (proj2 (proj2 (verifyTransactionMatchesCode_spec
      (web3 := Toy.web3) (codec := Toy.codec) (crypto := Toy.crypto)
      Toy.window Toy.wallet_code (js "signed-transaction"))))).
    + vm_compute. intros H; discriminate H.
    + vm_compute. reflexivity.
  - apply (proj1 (proj2 (proj2 (proj2 (verifyTransactionMatchesCode_spec
      (web3 := Toy.web3) (codec := Toy.codec) (crypto := Toy.crypto)
      Toy.window (DelegatedActionCode.base Toy.delegated_code)
      (js "memo-transaction"))))) Toy.wallet_meta).
    + vm_compute. intros H; discriminate H.
    + vm_compute. reflexivity.
    + reflexivity.
    + reflexivity.
    + vm_compute. intros H; discriminate H.
Defined.

(** C7.  On a versioned transaction with one required signer that carries
    a signature of 64 one-bytes, [attachProtocolMeta] of
    [src/adapters/SolanaAdapter.ts] returns a transaction that still
    carries that signature, not a zero-filled one; the second revision
    returns the zero-filled signature on the same input. *)
Theorem attachProtocolMeta_keeps_stale_signature :
  (exists newTx out,
     SolanaAdapter.attachProtocolMeta_built (web3 := Toy.web3)
       (codec := Toy.codec) (js "signed-transaction") Toy.wallet_meta None
     = Ok (Versioned newTx, out)
     /\ numRequiredSignatures (header (message_of (vtx_message newTx)))
        = 1%nat
     /\ vtx_signatures newTx = [repeat 1 64]
     /\ vtx_signatures newTx <> [zero_signature])
  /\
  (exists newTx out,
     SolanaAdapterR2.attachProtocolMeta_built (web3 := Toy.web3)
       (codec := Toy.codec) (js "signed-transaction") Toy.wallet_meta None
     = Ok (Versioned newTx, out)
     /\ vtx_signatures newTx = [zero_signature]).
Proof.
  split.
  - eexists _, _. split; [vm_compute; reflexivity|].
    split; [reflexivity|]. split; [reflexivity|].
    vm_compute. intros H; discriminate H.
  - eexists _, _. split; [vm_compute; reflexivity|]. reflexivity.
Qed.

(** ** Protocol facade *)

Section FacadeFacts.
Context {libs : Libraries} {crypto : CryptoUtils}.

Import ActionCodesProtocol.



End FacadeFacts.

